(** * Anomaly detection pipeline (lab9.py) and its log aggregator
      (log_analysis.py): a shallow embedding and its properties.

    Python values are modelled as follows.
    - [str] is [string]: a sequence of 8-bit characters.  The string
      primitives below ([lower], [py_int]) follow Python on ASCII text;
      ordering is byte-lexicographic, which on UTF-8 text is Python's
      code-point order.
    - [int] is [Z].
    - [dict]/[Counter] keyed by [str] is [gmap string _]; [set] of [str] is
      [gset string].  Wherever the source iterates one of them it sorts
      first, so the iteration order never shows.
    - exceptions are a sum type: [inl e] is a raised exception, [inr v] a
      normal result. *)

From Stdlib Require Import ZArith Ascii String List.
From stdpp Require Import base decidable option list sorting gmap strings pretty.

Local Open Scope Z_scope.
Local Open Scope string_scope.

(** ** Python string primitives *)

Module Py.

(** [sep.join(l)] *)
Definition join (sep : string) (l : list string) : string :=
  String.concat sep l.

(** [s.split(sep)] for a one-character separator: never the empty list. *)
Fixpoint split (sep : ascii) (s : string) : list string :=
  match s with
  | EmptyString => [EmptyString]
  | String c s' =>
      if decide (c = sep) then EmptyString :: split sep s'
      else match split sep s' with
           | h :: t => String c h :: t
           | [] => [String c EmptyString]
           end
  end.

(** One character of [str.lower()] on ASCII text. *)
Definition lower_char (c : ascii) : ascii :=
  let n := N_of_ascii c in
  if ((65 <=? n) && (n <=? 90))%N then ascii_of_N (n + 32) else c.

(** [s.lower()] *)
Fixpoint lower (s : string) : string :=
  match s with
  | EmptyString => EmptyString
  | String c s' => String (lower_char c) (lower s')
  end.

(** [str(n)] and the [{n}] of an f-string, for an [int]. *)
Definition str (n : Z) : string := pretty n.

(** The characters [int()] skips at both ends: tab, LF, VT, FF, CR and
    space. *)
Definition isspace (c : ascii) : bool :=
  let n := N_of_ascii c in
  (((9 <=? n) && (n <=? 13)) || (n =? 32))%N.

Fixpoint lstrip (s : string) : string :=
  match s with
  | EmptyString => EmptyString
  | String c s' => if isspace c then lstrip s' else s
  end.

Fixpoint rstrip (s : string) : string :=
  match s with
  | EmptyString => EmptyString
  | String c s' =>
      match rstrip s' with
      | EmptyString => if isspace c then EmptyString else String c EmptyString
      | r => String c r
      end
  end.

Definition strip (s : string) : string := rstrip (lstrip s).

Definition digit_of (c : ascii) : option N :=
  let n := N_of_ascii c in
  if ((48 <=? n) && (n <=? 57))%N then Some (n - 48)%N else None.

(** The digits of a base-10 literal: at least one digit, and single
    underscores allowed between digits only.  [prev] tells whether the
    previous character was a digit. *)
Fixpoint digits_go (acc : N) (prev : bool) (s : string) : option N :=
  match s with
  | EmptyString => if prev then Some acc else None
  | String c s' =>
      match digit_of c with
      | Some d => digits_go (acc * 10 + d)%N true s'
      | None =>
          if decide (c = "_"%char) then
            if prev then digits_go acc false s' else None
          else None
      end
  end.

(** [int(s)]: [None] stands for [ValueError].  Blanks are stripped at both
    ends, one sign may lead, and the rest is a run of ASCII digits with
    single underscores between them; digits and blanks outside ASCII, which
    Python also reads, are not in this model. *)
Definition int (s : string) : option Z :=
  match strip s with
  | EmptyString => None
  | String c r =>
      if decide (c = "-"%char) then (fun n => - Z.of_N n) <$> digits_go 0 false r
      else if decide (c = "+"%char) then Z.of_N <$> digits_go 0 false r
      else Z.of_N <$> digits_go 0 false (String c r)
  end.

(** [d.get(k, dflt)] on a [dict] with [int] values: total, no [KeyError]. *)
Definition get (d : gmap string Z) (k : string) (dflt : Z) : Z :=
  default dflt (d !! k).

(** [sorted(l)] on strings. *)
Definition sorted (l : list string) : list string := merge_sort String.le l.

(** Python's order on [(str, int)] tuples: the first components decide
    unless they are equal. *)
Definition item_le (a b : string * Z) : Prop :=
  if decide (a.1 = b.1) then a.2 <= b.2 else String.le a.1 b.1.

#[global] Instance item_le_dec : RelDecision item_le.
Proof. intros a b. unfold item_le. destruct (decide (a.1 = b.1)); apply _. Defined.

(** [sorted(d.items())] *)
Definition sorted_items (d : gmap string Z) : list (string * Z) :=
  merge_sort item_le (map_to_list d).

(** [os.path.join(a, b)] for two components. *)
Fixpoint ends_with_slash (s : string) : bool :=
  match s with
  | EmptyString => false
  | String c EmptyString => bool_decide (c = "/"%char)
  | String _ s' => ends_with_slash s'
  end.

Definition path_join (a b : string) : string :=
  match b with
  | String c _ =>
      if decide (c = "/"%char) then b
      else if decide (a = EmptyString) then b
      else if ends_with_slash a then a ++ b else a ++ "/" ++ b
  | EmptyString =>
      if decide (a = EmptyString) then EmptyString
      else if ends_with_slash a then a else a ++ "/"
  end.

(** [c in s] for a character. *)
Fixpoint contains (c : ascii) (s : string) : bool :=
  match s with
  | EmptyString => false
  | String c' s' => bool_decide (c' = c) || contains c s'
  end.

(** [s.count(c)] for a character. *)
Fixpoint count (c : ascii) (s : string) : nat :=
  match s with
  | EmptyString => O
  | String c' s' => (if decide (c' = c) then 1 else 0)%nat + count c s'
  end.

(** [s.endswith(suffix)] *)
Fixpoint endswith (suffix s : string) : bool :=
  bool_decide (s = suffix)
  || match s with
     | EmptyString => false
     | String _ s' => endswith suffix s'
     end.

(** [sum(d.values())] *)
Definition sum_values (d : gmap string Z) : Z :=
  map_fold (fun _ v acc => v + acc) 0 d.

End Py.

(** ** The structured log: one row of anomaly_log.csv

    The header written by [setup_csv] is
    [timestamp,reason,labels,counts,snapshot]; [csv.writer] and
    [csv.DictReader] carry the five fields of a row unchanged. *)

Module Csv.

Record Row := mkRow {
  timestamp : string;
  reason : string;
  labels : string;
  counts : string;
  snapshot : string
}.

End Csv.

(** ** What the scripts take from outside the repository *)

(** Python's [float], known here only through the two format
    specifications applied to it. *)
Class PyFloat := {
  float : Type;
  (** the text of [f"{x * 100.0:.1f}"] *)
  fmt_percent_1f : float -> string;
  (** the text of [f"{x:.0f}"] *)
  fmt_0f : float -> string
}.

(** [jetson_inference.detectNet] and the frames it works on. *)
Class DetectNet := {
  Img : Type;
  GetClassDesc : Z -> string
}.

(** The two rule constants at the top of lab9.py. *)
Class Rules := {
  ANOMALY_SET : gset string;
  MAX_PERSONS : option Z
}.

(** [datetime.datetime.strptime(s, "%Y-%m-%d %H:%M:%S")] ([None] stands for
    its [ValueError]) and [t.strftime("%Y-%m-%d %H:%M")]. *)
Class Datetime := {
  datetime : Type;
  strptime : string -> option datetime;
  strftime_minute : datetime -> string
}.

(** ** lab9.py

    The loop is modelled one pass at a time.  A pass takes the state of
    the process and the answers of its collaborators ([Tick]) and returns
    the new state, the effects in program order ([Event]) and whether the
    loop goes on.  The calls wrapped in [try] may raise an [Exception];
    every other call is taken to return.  [KeyboardInterrupt], which can
    arrive between any two statements, is left out. *)

Module Lab9.

Definition BASE_DIR : string := "/jetson-inference/data/nandini".
Definition LOG_PATH : string := Py.path_join BASE_DIR "detections.log".
Definition CSV_PATH : string := Py.path_join BASE_DIR "anomaly_log.csv".
Definition SNAPSHOT_DIR : string := Py.path_join BASE_DIR "anomaly_images".

(** The rules as the file ships them. *)
Definition shipped_rules : Rules :=
  {| ANOMALY_SET := {[ "chair"; "cellphone" ]}; MAX_PERSONS := None |}.

(** [normalize_uri] *)
Definition normalize_uri (s : string) : string :=
  if String.prefix "/dev/video" s then "v4l2://" ++ s else s.

Section Loop.
Context `{!PyFloat, !DetectNet, !Rules}.

Record Detection := mkDetection {
  ClassID : Z;
  Confidence : float
}.

(** What one pass of the loop does to the outside, in program order. *)
Inductive Event :=
| Printed (line : string)
| LogInfo (msg : string)
| LogError (msg : string)
| SaveImage (path : string) (img : Img)
| WriteRow (row : Csv.Row)
| Flush
| Render (img : Img)
| SetStatus (hud : string)
| CloseCsv.

(** The two globals of the loop, the rows that [csv_writer.writerow] has
    accepted, and the files of the snapshot directory. *)
Record State := mkState {
  anomaly_count : Z;
  last_reason : string;
  csv_rows : list Csv.Row;
  snapshots : gmap string Img
}.

(** What the collaborators answer during one pass.  An [Exception]
    raised by [saveImage], [writerow] or [flush] is [Some] of its text. *)
Record Tick := mkTick {
  capture : option Img;
  camera_streaming : bool;
  detections : list Detection;
  snapshot_clock : string;
  save_error : option string;
  row_clock : string;
  writerow_error : option string;
  flush_error : option string;
  network_fps : float;
  display_streaming : bool
}.

Inductive Control := Continue | Break.

(** [[net.GetClassDesc(d.ClassID).lower() for d in dets]] *)
Definition labels_of (dets : list Detection) : list string :=
  (fun d => Py.lower (GetClassDesc (ClassID d))) <$> dets.

(** [for L in labels: counts[L] = counts.get(L, 0) + 1] *)
Definition count_labels (labels : list string) : gmap string Z :=
  foldl (fun counts L => <[L := Py.get counts L 0 + 1]> counts) ∅ labels.

(** [sorted(list(present.intersection(ANOMALY_SET)))] *)
Definition bad_labels (present : gset string) : list string :=
  Py.sorted (elements (present ∩ ANOMALY_SET)).

(** [MAX_PERSONS is not None and counts.get("person", 0) > MAX_PERSONS] *)
Definition over_cap (counts : gmap string Z) : bool :=
  match MAX_PERSONS with
  | Some cap => bool_decide (Py.get counts "person" 0 > cap)
  | None => false
  end.

Definition forbidden_reason (bad : list string) : string :=
  "Detected: " ++ Py.join ", " bad.

Definition cap_reason (counts : gmap string Z) : string :=
  "person_count>" ++ from_option Py.str "None" MAX_PERSONS
    ++ " (=" ++ Py.str (Py.get counts "person" 0) ++ ")".

(** The anomaly logic: the list [reasons] after both rules. *)
Definition reasons_of (present : gset string) (counts : gmap string Z) : list string :=
  let reasons := [] in
  let bad := bad_labels present in
  let reasons :=
    match bad with [] => reasons | _ => (reasons ++ [forbidden_reason bad])%list end in
  let reasons :=
    if over_cap counts then (reasons ++ [cap_reason counts])%list else reasons in
  reasons.

(** [is_anomaly = len(reasons) > 0] *)
Definition is_anomaly (present : gset string) (counts : gmap string Z) : bool :=
  bool_decide (0 < length (reasons_of present counts))%nat.

Definition reason_txt (present : gset string) (counts : gmap string Z) : string :=
  match reasons_of present counts with
  | [] => "No anomaly classes present"
  | reasons => Py.join " | " reasons
  end.

(** The line of one detection in the [for d in dets] loop. *)
Definition detection_line (counts : gmap string Z) (d : Detection) : string :=
  let label := Py.lower (GetClassDesc (ClassID d)) in
  let conf := fmt_percent_1f (Confidence d) in
  if bool_decide (label ∈ ANOMALY_SET)
     || (match MAX_PERSONS with
         | Some cap =>
             bool_decide (label = "person")
             && bool_decide (Py.get counts "person" 0 > cap)
         | None => false
         end)
  then "ANOMALY: " ++ label ++ " (" ++ conf ++ "%)"
  else "Normal : " ++ label ++ " (" ++ conf ++ "%)".

Definition log_detections (counts : gmap string Z) (dets : list Detection) : list Event :=
  flat_map (fun d =>
    let line := detection_line counts d in
    [Printed (" " ++ line); LogInfo line]) dets.

(** [";".join([f"{k}:{v}" for k,v in sorted(counts.items())])] *)
Definition serialize_counts (counts : gmap string Z) : string :=
  Py.join ";" ((fun kv => kv.1 ++ ":" ++ Py.str kv.2) <$> Py.sorted_items counts).

(** The body of [if is_anomaly:], with [reason] the joined reasons. *)
Definition write_evidence (st : State) (t : Tick) (img : Img)
    (reason : string) (present : gset string) (counts : gmap string Z)
    : State * list Event :=
  let anomaly_count := anomaly_count st + 1 in
  let last_reason := reason in
  let ts_str := snapshot_clock t in
  let snapshot_path := Py.path_join SNAPSHOT_DIR ("anomaly_" ++ ts_str ++ ".jpg") in
  let '(snapshots, snapshot_path, ev_save) :=
    match save_error t with
    | None =>
        (<[snapshot_path := img]> (snapshots st), snapshot_path,
         [SaveImage snapshot_path img; LogInfo ("Saved snapshot: " ++ snapshot_path)])
    | Some e =>
        (snapshots st, EmptyString,
         [SaveImage snapshot_path img; LogError ("Failed to save snapshot: " ++ e)])
    end in
  let row :=
    Csv.mkRow (row_clock t) reason
      (Py.join ";" (Py.sorted (elements present)))
      (serialize_counts counts)
      snapshot_path in
  let '(csv_rows, ev_csv) :=
    match writerow_error t with
    | Some e => (csv_rows st, [WriteRow row; LogError ("CSV write failed: " ++ e)])
    | None =>
        match flush_error t with
        | Some e =>
            ((csv_rows st ++ [row])%list,
             [WriteRow row; Flush; LogError ("CSV write failed: " ++ e)])
        | None => ((csv_rows st ++ [row])%list, [WriteRow row; Flush])
        end
    end in
  (mkState anomaly_count last_reason csv_rows snapshots, (ev_save ++ ev_csv)%list).

(** [counts], [present] and [is_anomaly] as one pass derives them from the
    detections of its frame. *)
Definition frame_counts (t : Tick) : gmap string Z :=
  count_labels (labels_of (detections t)).

Definition frame_present (t : Tick) : gset string :=
  list_to_set (labels_of (detections t)).

Definition frame_anomalous (t : Tick) : bool :=
  is_anomaly (frame_present t) (frame_counts t).

(** One pass through the body of [while True:]. *)
Definition iteration (st : State) (t : Tick) : State * list Event * Control :=
  match capture t with
  | None =>
      if negb (camera_streaming t)
      then (st, [Printed "[EXIT] Input EOS."; LogInfo "Exit: input EOS"], Break)
      else (st, [], Continue)
  | Some img =>
      let dets := detections t in
      let labels := labels_of dets in
      let counts := count_labels labels in
      let present : gset string := list_to_set labels in
      let anomalous := is_anomaly present counts in
      let reason := reason_txt present counts in
      let ev_lines := log_detections counts dets in
      let '(st', ev_evidence) :=
        if anomalous then write_evidence st t img reason present counts
        else (st, []) in
      let status := if anomalous then "Anomaly!" else "Normal" in
      let hud :=
        status ++ " | anomalies=" ++ Py.str (anomaly_count st')
          ++ " | last=" ++ last_reason st'
          ++ " | FPS=" ++ fmt_0f (network_fps t) in
      let evs := (ev_lines ++ ev_evidence ++ [Render img; SetStatus hud])%list in
      if negb (display_streaming t)
      then (st', (evs ++ [Printed "[EXIT] Output closed."; LogInfo "Exit: output closed"])%list, Break)
      else (st', evs, Continue)
  end.

Inductive Outcome := Terminated | Running.

(** The [while True:] loop over the answers of the collaborators, as far
    as they are given: [Running] when the loop has consumed them all
    without reaching a [break]. *)
Fixpoint run (st : State) (ticks : list Tick) : State * list Event * Outcome :=
  match ticks with
  | [] => (st, [], Running)
  | t :: ticks' =>
      match iteration st t with
      | (st', evs, Break) => (st', evs, Terminated)
      | (st', evs, Continue) =>
          let '(st'', evs', out) := run st' ticks' in
          (st'', (evs ++ evs')%list, out)
      end
  end.

(** [anomaly_count = 0], [last_reason = "—"] (an em dash), a log with the
    rows [rows] already in it. *)
Definition initial (rows : list Csv.Row) (files : gmap string Img) : State :=
  mkState 0 (String "226" (String "128" (String "148" EmptyString))) rows files.

(** The [try: ... finally: csv_file.close()] around the loop. *)
Definition main (rows : list Csv.Row) (files : gmap string Img) (ticks : list Tick)
    : State * list Event * Outcome :=
  let '(st, evs, out) := run (initial rows files) ticks in
  match out with
  | Terminated => (st, (evs ++ [CloseCsv])%list, out)
  | Running => (st, evs, out)
  end.

(** The rows offered to [csv_writer.writerow] and the paths offered to
    [saveImage] in a trace. *)
Definition rows_attempted (evs : list Event) : list Csv.Row :=
  omap (fun e => match e with WriteRow r => Some r | _ => None end) evs.

Definition saves_attempted (evs : list Event) : list string :=
  omap (fun e => match e with SaveImage p _ => Some p | _ => None end) evs.

End Loop.

End Lab9.

(** ** log_analysis.py

    The read loop of the script, over the rows [csv.DictReader] yields.
    Nothing in the script catches an exception, so a [ValueError] raised in
    the loop ends the run before any line of the report is printed. *)

Module LogAnalysis.

(** The [ValueError]s the loop can raise. *)
Inductive Error :=
| UnpackError (kv : string)
| IntError (v : string)
| StrptimeError (ts : string).

(** [c[k] += n] on a [collections.Counter] *)
Definition counter_add (c : gmap string Z) (k : string) (n : Z) : gmap string Z :=
  <[k := Py.get c k 0 + n]> c.

(** The inner loop [for kv in row["counts"].split(";")] over the segments
    still to visit. *)
Fixpoint add_counts (segs : list string) (class_counts : gmap string Z)
    : Error + gmap string Z :=
  match segs with
  | [] => inr class_counts
  | kv :: segs' =>
      if decide (kv = EmptyString) then add_counts segs' class_counts
      else match Py.split ":" kv with
           | [k; v] =>
               match Py.int v with
               | Some n => add_counts segs' (counter_add class_counts k n)
               | None => inl (IntError v)
               end
           | _ => inl (UnpackError kv)
           end
  end.

(** A segment of the counts field that cannot be read: it is not empty,
    and it has not exactly one colon or what follows the colon is no
    integer. *)
Definition segment_malformed (kv : string) : Prop :=
  kv <> EmptyString /\
  (Py.count ":" kv <> 1%nat \/
   exists k v, kv = k ++ String ":" v /\ Py.int v = None).

Definition counts_malformed (field : string) : Prop :=
  exists kv, kv ∈ Py.split ";" field /\ segment_malformed kv.

Record Tables := mkTables {
  total_rows : Z;
  reasons : gmap string Z;
  class_counts : gmap string Z;
  by_minute : gmap string Z
}.

Definition empty_tables : Tables := mkTables 0 ∅ ∅ ∅.

Section Aggregate.
Context `{!Datetime}.

(** The body of [for row in r:]. *)
Definition process_row (tb : Tables) (row : Csv.Row) : Error + Tables :=
  let total_rows := total_rows tb + 1 in
  let reasons := counter_add (reasons tb) (Csv.reason row) 1 in
  match add_counts (Py.split ";" (Csv.counts row)) (class_counts tb) with
  | inl e => inl e
  | inr class_counts =>
      match strptime (Csv.timestamp row) with
      | None => inl (StrptimeError (Csv.timestamp row))
      | Some t =>
          inr (mkTables total_rows reasons class_counts
                 (counter_add (by_minute tb) (strftime_minute t) 1))
      end
  end.

(** The whole read loop; the report is printed from the tables it leaves,
    and only when it leaves any. *)
Fixpoint aggregate_from (tb : Tables) (rows : list Csv.Row) : Error + Tables :=
  match rows with
  | [] => inr tb
  | row :: rows' =>
      match process_row tb row with
      | inl e => inl e
      | inr tb' => aggregate_from tb' rows'
      end
  end.

Definition aggregate (rows : list Csv.Row) : Error + Tables :=
  aggregate_from empty_tables rows.

End Aggregate.

(** [len([p for p in os.listdir(IMG_DIR) if p.lower().endswith(".jpg")])],
    over the names [os.listdir] returns. *)
Definition snapshots_count (listing : list string) : nat :=
  length (filter (fun p => Py.endswith ".jpg" (Py.lower p) = true) listing).

(** The items of a [Counter] in the order of the dictionary, which is the
    order in which its keys were first inserted: the items after
    [c[k] += n]. *)
Fixpoint items_add (items : list (string * Z)) (k : string) (n : Z)
    : list (string * Z) :=
  match items with
  | [] => [(k, 0 + n)]
  | (k', v) :: items' =>
      if decide (k' = k) then (k', v + n) :: items'
      else (k', v) :: items_add items' k n
  end.

(** [reasons.items()] once the read loop is through with [rows]. *)
Definition reasons_items (rows : list Csv.Row) : list (string * Z) :=
  foldl (fun items row => items_add items (Csv.reason row) 1) [] rows.

(** Sorting by count, largest first, equal counts in the order they came
    in: [sorted(items, key=itemgetter(1), reverse=True)]. *)
Fixpoint insert_desc (x : string * Z) (l : list (string * Z)) : list (string * Z) :=
  match l with
  | [] => [x]
  | y :: l' => if decide (x.2 < y.2) then y :: insert_desc x l' else x :: l
  end.

Definition sort_desc (l : list (string * Z)) : list (string * Z) :=
  foldr insert_desc [] l.

(** [c.most_common(n)] on the items of [c] *)
Definition most_common (n : nat) (items : list (string * Z)) : list (string * Z) :=
  take n (sort_desc items).

(** [sorted(class_counts.items())] *)
Definition class_totals (class_counts : gmap string Z) : list (string * Z) :=
  Py.sorted_items class_counts.

(** The order of the keys [(-x[1], x[0])]. *)
Definition minute_le (a b : string * Z) : Prop :=
  if decide (a.2 = b.2) then String.le a.1 b.1 else b.2 < a.2.

#[global] Instance minute_le_dec : RelDecision minute_le.
Proof. intros a b. unfold minute_le. destruct (decide (a.2 = b.2)); apply _. Defined.

(** [sorted(by_minute.items(), key=lambda x: (-x[1], x[0]))[:10]] *)
Definition top_minutes (by_minute : gmap string Z) : list (string * Z) :=
  take 10 (merge_sort minute_le (map_to_list by_minute)).

End LogAnalysis.

(** ** Concrete collaborators, for running the model on examples *)

Module Demo.

(** Confidences and rates in thousandths. *)
Definition demo_float : PyFloat :=
  {| float := Z;
     fmt_percent_1f := fun x => Py.str (x / 10) ++ "." ++ Py.str (x mod 10);
     fmt_0f := fun x => Py.str (x / 1000) |}.

(** A few classes of the COCO label file. *)
Definition demo_net : DetectNet :=
  {| Img := nat;
     GetClassDesc := fun id =>
       if decide (id = 1) then "person"
       else if decide (id = 62) then "Chair"
       else if decide (id = 18) then "dog"
       else "unknown" |}.

Definition capped_rules (cap : Z) : Rules :=
  {| ANOMALY_SET := {[ "chair"; "cellphone" ]}; MAX_PERSONS := Some cap |}.

(** A reader of exactly [dddd-dd-dd dd:dd:dd]. *)
Fixpoint shape_ok (shape s : string) : bool :=
  match shape, s with
  | EmptyString, EmptyString => true
  | String p shape', String c s' =>
      (if decide (p = "d"%char) then bool_decide (is_Some (Py.digit_of c))
       else bool_decide (c = p)) && shape_ok shape' s'
  | _, _ => false
  end.

Definition demo_datetime : Datetime :=
  {| datetime := string;
     strptime := fun s => if shape_ok "dddd-dd-dd dd:dd:dd" s then Some s else None;
     strftime_minute := fun t => String.substring 0 16 t |}.

Definition det (id conf : Z) : @Lab9.Detection demo_float :=
  @Lab9.mkDetection demo_float id conf.

Definition tick (frame : option nat) (dets : list (@Lab9.Detection demo_float))
    (save_error writerow_error : option string) : @Lab9.Tick demo_float demo_net :=
  @Lab9.mkTick demo_float demo_net frame true dets "20240102_030405" save_error
    "2024-01-02 03:04:05" writerow_error None 29500 true.

End Demo.

(** * Properties *)

(** ** Examples *)

Example split_demo : Py.split ";" "a:1;;b:2;" = ["a:1"; EmptyString; "b:2"; EmptyString].
Proof. reflexivity. Qed.
Example int_demo : Py.int " -1_000 " = Some (-1000) /\ Py.int "1__0" = None /\ Py.int (Py.str 1203) = Some 1203.
Proof. vm_compute. auto. Qed.
Example int_separator_demo :
  Py.int (String "053" (String "031" EmptyString)) = None
  /\ Py.int (String "028" "5") = None
  /\ Py.int (String "009" (String "053" (String "010" EmptyString))) = Some 5.
Proof. vm_compute. auto. Qed.
Example lower_demo : Py.lower "Cell Phone" = "cell phone".
Proof. reflexivity. Qed.
Example path_demo : Py.path_join "/data/x" "anomaly_images" = "/data/x/anomaly_images".
Proof. reflexivity. Qed.
Example sorted_demo : Py.sorted ["person"; "chair"; "cellphone"] = ["cellphone"; "chair"; "person"].
Proof. reflexivity. Qed.

(** ** Facts about the string primitives *)

Section py_facts.
Implicit Types (s a b : string) (c sep : ascii).

Lemma contains_app c a b :
  Py.contains c (a ++ b) = Py.contains c a || Py.contains c b.
Proof. induction a as [|c' a IH]; simpl; [done|]. rewrite IH. by destruct (bool_decide _). Qed.

Lemma contains_cons_false c c' s :
  Py.contains c (String c' s) = false <-> c' <> c /\ Py.contains c s = false.
Proof.
  simpl. rewrite orb_false_iff, bool_decide_eq_false. tauto.
Qed.

Lemma count_contains c s : Py.count c s = O <-> Py.contains c s = false.
Proof.
  induction s as [|c' s IH]; simpl; [done|].
  rewrite orb_false_iff, bool_decide_eq_false, <- IH.
  destruct (decide (c' = c)); simpl; split; try lia; intros []; try done; lia.
Qed.

Lemma split_not_nil sep s : Py.split sep s <> [].
Proof.
  destruct s as [|c s]; simpl; [done|].
  destruct (decide (c = sep)); [done|]. by destruct (Py.split sep s).
Qed.

Lemma split_no_sep sep s : Py.contains sep s = false -> Py.split sep s = [s].
Proof.
  induction s as [|c s IH]; simpl; [done|].
  intros [Hc Hs]%orb_false_iff. apply bool_decide_eq_false in Hc.
  rewrite decide_False, IH by done. done.
Qed.

Lemma split_app_sep sep a b :
  Py.contains sep a = false ->
  Py.split sep (a ++ String sep b) = a :: Py.split sep b.
Proof.
  induction a as [|c a IH]; simpl.
  - intros _. by rewrite decide_True.
  - intros [Hc Hs]%orb_false_iff. apply bool_decide_eq_false in Hc.
    rewrite decide_False, IH by done. done.
Qed.

Lemma split_length sep s : length (Py.split sep s) = S (Py.count sep s).
Proof.
  induction s as [|c s IH]; simpl; [done|].
  destruct (decide (c = sep)); simpl; [by rewrite IH|].
  destruct (Py.split sep s); simpl in *; lia.
Qed.

(** Splitting undoes joining, for pieces free of the separator. *)
Lemma split_join sep (segs : list string) :
  segs <> [] ->
  Forall (fun s => Py.contains sep s = false) segs ->
  Py.split sep (Py.join (String sep EmptyString) segs) = segs.
Proof.
  intros Hne Hall. induction Hall as [|s segs Hs Hall IH]; [done|].
  destruct segs as [|s' segs]; simpl.
  - by apply split_no_sep.
  - change (Py.split sep (s ++ String sep (Py.join (String sep EmptyString) (s' :: segs)))
            = s :: s' :: segs).
    rewrite split_app_sep by done. by rewrite IH.
Qed.

Lemma lstrip_id c s : Py.isspace c = false -> Py.lstrip (String c s) = String c s.
Proof. simpl. by intros ->. Qed.

Lemma rstrip_id s :
  (forall c, Py.contains c s = true -> Py.isspace c = false) -> Py.rstrip s = s.
Proof.
  induction s as [|c s IH]; simpl; [done|]. intros H.
  rewrite IH.
  - rewrite (H c) by (by rewrite bool_decide_eq_true_2). by destruct s.
  - intros c' Hc'. apply H. rewrite Hc'. by rewrite orb_true_r.
Qed.

Lemma strip_id s :
  (forall c, Py.contains c s = true -> Py.isspace c = false) -> Py.strip s = s.
Proof.
  intros H. unfold Py.strip. destruct s as [|c s]; [done|].
  rewrite lstrip_id; [by apply rstrip_id|].
  apply H. simpl. by rewrite bool_decide_eq_true_2.
Qed.

Lemma digit_of_pretty_N_char (d : N) :
  (d < 10)%N -> Py.digit_of (pretty_N_char d) = Some d.
Proof.
  intros Hd.
  assert (d = 0 \/ d = 1 \/ d = 2 \/ d = 3 \/ d = 4 \/ d = 5 \/ d = 6 \/ d = 7
          \/ d = 8 \/ d = 9)%N as Hcases by lia.
  repeat destruct Hcases as [->|Hcases]; try subst d; reflexivity.
Qed.

(** The characters [pretty_N_go] puts in front of [s] are digits. *)
Lemma pretty_N_go_chars (x : N) s c :
  Py.contains c (pretty_N_go x s) = true ->
  is_Some (Py.digit_of c) \/ Py.contains c s = true.
Proof.
  revert s. induction (N.lt_wf_0 x) as [x _ IH]; intros s.
  destruct (decide (x = 0)%N) as [->|Hx]; [rewrite pretty_N_go_0; auto|].
  rewrite pretty_N_go_step by lia. intros H.
  apply IH in H as [H|H]; [by left| |apply N.div_lt; lia].
  simpl in H. apply orb_true_iff in H as [H|H]; [|by right].
  apply bool_decide_eq_true in H as <-. left.
  rewrite digit_of_pretty_N_char; [done|]. apply N.mod_lt. lia.
Qed.

(** Reading back the digits [pretty_N_go] wrote. *)
Lemma digits_go_pretty_N_go (x : N) :
  (0 < x)%N ->
  exists k : N, forall acc prev s,
    Py.digits_go acc prev (pretty_N_go x s)
    = Py.digits_go (acc * 10 ^ k + x)%N true s.
Proof.
  induction (N.lt_wf_0 x) as [x _ IH]; intros Hx.
  destruct (decide (x `div` 10 = 0)%N) as [Hq|Hq].
  - exists 1%N. intros acc prev s.
    rewrite pretty_N_go_step, Hq, pretty_N_go_0 by done. simpl.
    rewrite digit_of_pretty_N_char by (apply N.mod_lt; lia).
    f_equal. rewrite N.pow_1_r. pose proof (N.div_mod x 10 ltac:(done)). lia.
  - destruct (IH (x `div` 10)%N) as [k Hk];
      [apply N.div_lt; lia|by apply N.neq_0_lt_0|].
    exists (N.succ k). intros acc prev s.
    rewrite pretty_N_go_step, Hk by done. simpl.
    rewrite digit_of_pretty_N_char by (apply N.mod_lt; lia).
    f_equal. rewrite N.pow_succ_r'. pose proof (N.div_mod x 10 ltac:(done)). lia.
Qed.

Lemma digits_go_pretty_pos (p : positive) :
  Py.digits_go 0 false (pretty_N_go (N.pos p) EmptyString) = Some (N.pos p).
Proof.
  destruct (digits_go_pretty_N_go (N.pos p)) as [k Hk]; [lia|].
  rewrite Hk. simpl. f_equal.
Qed.

Lemma pretty_pos_chars (p : positive) c :
  Py.contains c (pretty_N_go (N.pos p) EmptyString) = true ->
  is_Some (Py.digit_of c).
Proof. intros [H|H]%pretty_N_go_chars; [done|discriminate]. Qed.

Lemma digit_not_space c : is_Some (Py.digit_of c) -> Py.isspace c = false.
Proof.
  unfold Py.digit_of, Py.isspace. intros [d Hd]. revert Hd.
  destruct (N.eqb_spec (N_of_ascii c) 32);
    repeat match goal with
           | |- context [(?a <=? ?b)%N] => destruct (N.leb_spec a b)
           end; simpl; try done; lia.
Qed.

Lemma str_pos p : Py.str (Z.pos p) = pretty_N_go (N.pos p) EmptyString.
Proof. reflexivity. Qed.

Lemma str_neg p : Py.str (Z.neg p) = String "-" (pretty_N_go (N.pos p) EmptyString).
Proof. reflexivity. Qed.

(** The characters of [str(n)]: a minus sign and digits. *)
Lemma str_chars (n : Z) c :
  Py.contains c (Py.str n) = true -> c = "-"%char \/ is_Some (Py.digit_of c).
Proof.
  destruct n as [|p|p].
  - simpl. intros H. apply orb_true_iff in H as [H|H]; [|done].
    apply bool_decide_eq_true in H as <-. right. by eexists.
  - rewrite str_pos. right. by eapply pretty_pos_chars.
  - rewrite str_neg. simpl. intros [H|H]%orb_true_iff.
    + apply bool_decide_eq_true in H. auto.
    + right. by eapply pretty_pos_chars.
Qed.

Lemma str_no_char (n : Z) c :
  c <> "-"%char -> Py.digit_of c = None -> Py.contains c (Py.str n) = false.
Proof.
  intros Hc Hd. destruct (Py.contains c (Py.str n)) eqn:H; [|done].
  apply str_chars in H as [?|[? ?]]; congruence.
Qed.

Lemma str_not_empty (n : Z) : Py.str n <> EmptyString.
Proof.
  destruct n as [|p|p]; [done| |done].
  rewrite str_pos. intros H. pose proof (digits_go_pretty_pos p) as Hd.
  rewrite H in Hd. discriminate.
Qed.

(** [int(str(n)) == n] *)
Lemma int_str (n : Z) : Py.int (Py.str n) = Some n.
Proof.
  unfold Py.int. rewrite strip_id.
  2:{ intros c [->|H]%str_chars; [done|by apply digit_not_space]. }
  destruct n as [|p|p]; [done| |].
  - rewrite str_pos. pose proof (digits_go_pretty_pos p) as Hd.
    pose proof (pretty_pos_chars p) as Hc.
    destruct (pretty_N_go (N.pos p) EmptyString) as [|c r]; [discriminate|].
    assert (is_Some (Py.digit_of c)) as [d Hdc].
    { apply Hc. simpl. by rewrite bool_decide_eq_true_2. }
    rewrite !decide_False by (intros ->; discriminate).
    by rewrite Hd.
  - rewrite str_neg. rewrite decide_True by done.
    by rewrite digits_go_pretty_pos.
Qed.

End py_facts.

(** ** The rule evaluator *)

Section rule_facts.
Context {fl : PyFloat} {net : DetectNet} {rules : Rules}.
Implicit Types (present : gset string) (counts : gmap string Z).

Lemma sorted_nil_iff (l : list string) : Py.sorted l = [] <-> l = [].
Proof.
  unfold Py.sorted. split.
  - intros H. apply Permutation_nil_r. rewrite <- H.
    by rewrite merge_sort_Permutation.
  - by intros ->.
Qed.

Lemma sorted_Sorted (l : list string) : Sorted String.le (Py.sorted l).
Proof. apply (Sorted_merge_sort String.le). Qed.

(** [sorted] forgets the order of its argument. *)
Lemma sorted_perm (l1 l2 : list string) : l1 ≡ₚ l2 -> Py.sorted l1 = Py.sorted l2.
Proof.
  intros Hp. apply (Sorted_unique String.le); [apply sorted_Sorted..|].
  unfold Py.sorted. by rewrite !merge_sort_Permutation.
Qed.

Lemma bad_labels_nil_iff present :
  Lab9.bad_labels present = [] <-> present ∩ ANOMALY_SET = ∅.
Proof.
  unfold Lab9.bad_labels. rewrite sorted_nil_iff, elements_empty_iff.
  by rewrite leibniz_equiv_iff.
Qed.

Lemma over_cap_true_iff counts :
  Lab9.over_cap counts = true <->
  exists cap, MAX_PERSONS = Some cap /\ Py.get counts "person" 0 > cap.
Proof.
  unfold Lab9.over_cap. destruct MAX_PERSONS as [cap|].
  - rewrite bool_decide_eq_true. split; [eauto|]. by intros (? & [= <-] & ?).
  - split; [done|]. by intros (? & ? & ?).
Qed.

(** The list [reasons] holds the forbidden-class reason, if that rule
    fires, and then the count-cap reason, if that rule fires. *)
Lemma reasons_of_eq present counts :
  Lab9.reasons_of present counts =
  ((if decide (present ∩ ANOMALY_SET = ∅) then []
    else [Lab9.forbidden_reason (Lab9.bad_labels present)])
   ++ (if Lab9.over_cap counts then [Lab9.cap_reason counts] else []))%list.
Proof.
  unfold Lab9.reasons_of.
  destruct (decide (present ∩ ANOMALY_SET = ∅)) as [He|He].
  - apply bad_labels_nil_iff in He as ->. simpl. by destruct (Lab9.over_cap counts).
  - destruct (Lab9.bad_labels present) eqn:Hb.
    + by apply bad_labels_nil_iff in Hb.
    + simpl. by destruct (Lab9.over_cap counts).
Qed.

(** C1: [is_anomaly] is true exactly when a present label is in
    [ANOMALY_SET], or [MAX_PERSONS] is configured and the count of
    ["person"] (0 when the key is missing) exceeds it. *)
Theorem is_anomaly_iff present counts :
  Lab9.is_anomaly present counts = true <->
  (present ∩ ANOMALY_SET ≠ ∅ \/
   exists cap, MAX_PERSONS = Some cap /\ Py.get counts "person" 0 > cap).
Proof.
  unfold Lab9.is_anomaly. rewrite bool_decide_eq_true, reasons_of_eq.
  rewrite <- over_cap_true_iff.
  destruct (decide (present ∩ ANOMALY_SET = ∅)) as [He|He],
    (Lab9.over_cap counts); simpl; split; auto with lia.
  intros [?|?]; [done|discriminate].
Qed.

Lemma is_anomaly_false_reasons present counts :
  Lab9.is_anomaly present counts = false <-> Lab9.reasons_of present counts = [].
Proof.
  unfold Lab9.is_anomaly. rewrite bool_decide_eq_false.
  destruct (Lab9.reasons_of present counts); simpl; split; try done; lia.
Qed.

(** C5: the forbidden-class reason comes first and the count-cap reason
    second, in the list and in the joined text; the labels of the
    forbidden-class reason are in ascending order, whatever order the set
    is listed in and whatever order the detections arrived in. *)
Theorem reasons_order_and_bad_sorted present counts :
  Lab9.reasons_of present counts =
    ((if decide (present ∩ ANOMALY_SET = ∅) then []
      else [("Detected: " ++ Py.join ", " (Lab9.bad_labels present))%string])
     ++ (if Lab9.over_cap counts then [Lab9.cap_reason counts] else []))%list
  /\ (present ∩ ANOMALY_SET ≠ ∅ -> Lab9.over_cap counts = true ->
      Lab9.reason_txt present counts =
        ("Detected: " ++ Py.join ", " (Lab9.bad_labels present))
          ++ " | " ++ Lab9.cap_reason counts)
  /\ Sorted String.le (Lab9.bad_labels present)
  /\ (forall l : list string,
        NoDup l -> (forall x, x ∈ l <-> x ∈ present ∩ ANOMALY_SET) ->
        Py.sorted l = Lab9.bad_labels present)
  /\ (forall dets1 dets2 : list Lab9.Detection,
        dets1 ≡ₚ dets2 ->
        Lab9.bad_labels (list_to_set (Lab9.labels_of dets1))
        = Lab9.bad_labels (list_to_set (Lab9.labels_of dets2))).
Proof.
  split; [apply reasons_of_eq|]. split; [|split; [|split]].
  - intros He Hc. unfold Lab9.reason_txt. rewrite reasons_of_eq.
    rewrite decide_False, Hc by done. reflexivity.
  - apply sorted_Sorted.
  - intros l Hl Hx. apply sorted_perm, NoDup_Permutation; [done|apply NoDup_elements|].
    intros x. by rewrite Hx, elem_of_elements.
  - intros dets1 dets2 Hp. f_equal. apply set_eq. intros x.
    rewrite !elem_of_list_to_set. unfold Lab9.labels_of. by rewrite Hp.
Qed.

(** C9, as the code has it: when ["person"] is no key of [counts], the
    count-cap rule reads the count as 0, and it does not fire when no cap is
    configured or the configured cap is not negative. *)
Theorem cap_rule_person_absent counts :
  counts !! "person" = None ->
  (forall cap, MAX_PERSONS = Some cap -> 0 <= cap) ->
  Py.get counts "person" 0 = 0 /\ Lab9.over_cap counts = false.
Proof.
  intros Hk Hcap. unfold Lab9.over_cap, Py.get. rewrite Hk. simpl.
  split; [done|]. destruct MAX_PERSONS as [cap|]; [|done].
  apply bool_decide_eq_false. specialize (Hcap cap eq_refl). lia.
Qed.

End rule_facts.

Lemma cap_rule_person_absent_witness :
  Py.get {[ "dog" := 2 ]} "person" 0 = 0
  /\ @Lab9.over_cap (Demo.capped_rules 3) {[ "dog" := 2 ]} = false.
Proof.
  apply (@cap_rule_person_absent (Demo.capped_rules 3) {[ "dog" := 2 ]}).
  - reflexivity.
  - intros cap [= <-]. lia.
Defined.

(** C9 as the specification words it, for any configured cap, fails at a
    negative cap: ["person"] is absent, its count reads as 0, and 0 exceeds
    the cap, so the rule fires. *)
Lemma cap_rule_person_absent_counterexample :
  ({[ "dog" := 2 ]} : gmap string Z) !! "person" = None
  /\ Py.get {[ "dog" := 2 ]} "person" 0 = 0
  /\ @Lab9.over_cap (Demo.capped_rules (-1)) {[ "dog" := 2 ]} = true.
Proof. repeat split; reflexivity. Qed.

(** ** One pass of the detection loop *)

Section loop_facts.
Context {fl : PyFloat} {net : DetectNet} {rules : Rules}.
Implicit Types (st : Lab9.State) (t : Lab9.Tick) (img : Img).

Lemma rows_attempted_app (evs1 evs2 : list Lab9.Event) :
  Lab9.rows_attempted (evs1 ++ evs2)
  = (Lab9.rows_attempted evs1 ++ Lab9.rows_attempted evs2)%list.
Proof. apply omap_app. Qed.

Lemma saves_attempted_app (evs1 evs2 : list Lab9.Event) :
  Lab9.saves_attempted (evs1 ++ evs2)
  = (Lab9.saves_attempted evs1 ++ Lab9.saves_attempted evs2)%list.
Proof. apply omap_app. Qed.

Lemma log_detections_no_rows counts dets :
  Lab9.rows_attempted (Lab9.log_detections counts dets) = []
  /\ Lab9.saves_attempted (Lab9.log_detections counts dets) = [].
Proof. induction dets as [|d dets [IH1 IH2]]; simpl; auto. Qed.

(** The row a pass offers to the log, given the snapshot path. *)
Lemma write_evidence_rows st t img reason present counts :
  exists row,
    Lab9.rows_attempted (Lab9.write_evidence st t img reason present counts).2 = [row]
    /\ Csv.reason row = reason
    /\ Csv.timestamp row = Lab9.row_clock t
    /\ Csv.counts row = Lab9.serialize_counts counts
    /\ (is_Some (Lab9.save_error t) -> Csv.snapshot row = EmptyString)
    /\ Lab9.csv_rows (Lab9.write_evidence st t img reason present counts).1
       = (Lab9.csv_rows st
          ++ (if Lab9.writerow_error t is Some _ then [] else [row]))%list
    /\ Lab9.anomaly_count (Lab9.write_evidence st t img reason present counts).1
       = Lab9.anomaly_count st + 1
    /\ Lab9.last_reason (Lab9.write_evidence st t img reason present counts).1
       = reason.
Proof.
  unfold Lab9.write_evidence.
  destruct (Lab9.save_error t) as [e|], (Lab9.writerow_error t) as [e'|],
    (Lab9.flush_error t) as [e''|]; simpl;
    eexists; (split; [reflexivity|]); simpl;
    rewrite ?app_nil_r; repeat split; auto; by intros [? ?].
Qed.

(** The events of a pass that got a frame, and the state it leaves. *)
Lemma iteration_frame st t img :
  Lab9.capture t = Some img ->
  exists exit_evs,
    let ev_st :=
      if Lab9.frame_anomalous t
      then Lab9.write_evidence st t img
             (Lab9.reason_txt (Lab9.frame_present t) (Lab9.frame_counts t))
             (Lab9.frame_present t) (Lab9.frame_counts t)
      else (st, []) in
    (Lab9.iteration st t).1.1 = ev_st.1
    /\ (Lab9.iteration st t).1.2
       = (Lab9.log_detections (Lab9.frame_counts t) (Lab9.detections t)
          ++ ev_st.2
          ++ Lab9.Render img
             :: Lab9.SetStatus
                  ((if Lab9.frame_anomalous t then "Anomaly!" else "Normal")
                   ++ " | anomalies=" ++ Py.str (Lab9.anomaly_count ev_st.1)
                   ++ " | last=" ++ Lab9.last_reason ev_st.1
                   ++ " | FPS=" ++ fmt_0f (Lab9.network_fps t))%string
             :: exit_evs)%list
    /\ Lab9.rows_attempted exit_evs = []
    /\ Lab9.saves_attempted exit_evs = [].
Proof.
  intros Hc. unfold Lab9.iteration. rewrite Hc.
  fold (Lab9.frame_counts t) (Lab9.frame_present t) (Lab9.frame_anomalous t).
  destruct (Lab9.frame_anomalous t).
  - destruct (Lab9.write_evidence _ _ _ _ _ _) as [st' evs] eqn:He.
    destruct (Lab9.display_streaming t); simpl.
    + exists []. by repeat split.
    + eexists [_; _]. simpl. rewrite <- !app_assoc. by repeat split.
  - destruct (Lab9.display_streaming t); simpl.
    + exists []. by repeat split.
    + eexists [_; _]. simpl. rewrite <- !app_assoc. by repeat split.
Qed.

(** What a pass that got a frame offers to the log and to [saveImage],
    and the state it leaves, in terms of the evidence step alone. *)
Lemma iteration_evidence st t img :
  Lab9.capture t = Some img ->
  let ev_st :=
    if Lab9.frame_anomalous t
    then Lab9.write_evidence st t img
           (Lab9.reason_txt (Lab9.frame_present t) (Lab9.frame_counts t))
           (Lab9.frame_present t) (Lab9.frame_counts t)
    else (st, []) in
  (Lab9.iteration st t).1.1 = ev_st.1
  /\ Lab9.rows_attempted (Lab9.iteration st t).1.2 = Lab9.rows_attempted ev_st.2
  /\ Lab9.saves_attempted (Lab9.iteration st t).1.2 = Lab9.saves_attempted ev_st.2.
Proof.
  intros Hc ev_st.
  destruct (iteration_frame st t img Hc) as (ex & Hst & Hev & Hex1 & Hex2).
  fold ev_st in Hst, Hev. rewrite Hst, Hev.
  rewrite !rows_attempted_app, !saves_attempted_app.
  destruct (log_detections_no_rows (Lab9.frame_counts t) (Lab9.detections t))
    as [-> ->].
  change (Lab9.rows_attempted (_ :: _ :: ex)) with (Lab9.rows_attempted ex).
  change (Lab9.saves_attempted (_ :: _ :: ex)) with (Lab9.saves_attempted ex).
  rewrite Hex1, Hex2, !app_nil_r. done.
Qed.



(** C7: a pass that gets no frame ends the loop when the camera no longer
    streams, and otherwise changes nothing, emits nothing and hands over to
    the next pass. *)
Theorem no_frame_pass st t :
  Lab9.capture t = None ->
  (Lab9.camera_streaming t = false ->
   forall ticks,
     Lab9.run st (t :: ticks)
     = (st, [Lab9.Printed "[EXIT] Input EOS."; Lab9.LogInfo "Exit: input EOS"],
        Lab9.Terminated))
  /\ (Lab9.camera_streaming t = true ->
      Lab9.iteration st t = (st, [], Lab9.Continue)
      /\ forall ticks, Lab9.run st (t :: ticks) = Lab9.run st ticks).
Proof.
  intros Hc. split; intros Hs.
  - intros ticks. simpl. unfold Lab9.iteration. by rewrite Hc, Hs.
  - assert (Lab9.iteration st t = (st, [], Lab9.Continue)) as Hi.
    { unfold Lab9.iteration. by rewrite Hc, Hs. }
    split; [done|]. intros ticks. simpl. rewrite Hi.
    by destruct (Lab9.run st ticks) as [[? ?] ?].
Qed.

(** C8, as the code has it: every pass that got a frame starts by
    printing and logging one line per detection, anomalous frame or not;
    the line reads [ANOMALY: label (xx.x%)] for a label of [ANOMALY_SET]
    and for ["person"] over the configured cap, and [Normal : label
    (xx.x%)], with a blank before the colon, otherwise. *)
Theorem detection_lines st t img :
  Lab9.capture t = Some img ->
  (exists rest,
     (Lab9.iteration st t).1.2
     = (flat_map (fun d =>
          [Lab9.Printed (" " ++ Lab9.detection_line (Lab9.frame_counts t) d);
           Lab9.LogInfo (Lab9.detection_line (Lab9.frame_counts t) d)])
          (Lab9.detections t) ++ rest)%list)
  /\ forall d : Lab9.Detection,
       let label := Py.lower (GetClassDesc (Lab9.ClassID d)) in
       let flagged :=
         label ∈ ANOMALY_SET \/
         (label = "person" /\
          exists cap, MAX_PERSONS = Some cap
                      /\ Py.get (Lab9.frame_counts t) "person" 0 > cap) in
       (flagged ->
        Lab9.detection_line (Lab9.frame_counts t) d
        = "ANOMALY: " ++ label ++ " (" ++ fmt_percent_1f (Lab9.Confidence d) ++ "%)")
       /\ (~ flagged ->
           Lab9.detection_line (Lab9.frame_counts t) d
           = "Normal : " ++ label ++ " (" ++ fmt_percent_1f (Lab9.Confidence d) ++ "%)").
Proof.
  intros Hc. split.
  - destruct (iteration_frame st t img Hc) as (ex & _ & Hev & _).
    rewrite Hev. eauto.
  - intros d label flagged. unfold Lab9.detection_line. fold label.
    assert (bool_decide (label ∈ ANOMALY_SET)
            || match MAX_PERSONS with
               | Some cap => bool_decide (label = "person")
                             && bool_decide (Py.get (Lab9.frame_counts t) "person" 0 > cap)
               | None => false
               end = true <-> flagged) as Hf.
    { unfold flagged. rewrite orb_true_iff, bool_decide_eq_true.
      destruct MAX_PERSONS as [cap|].
      - rewrite andb_true_iff, !bool_decide_eq_true. split.
        + intros [?|[? ?]]; eauto 6.
        + intros [?|[? (? & [= <-] & ?)]]; auto.
      - split; [intros [?|?]; [auto|done]|].
        intros [?|[? (? & ? & ?)]]; [auto|done]. }
    destruct (_ || _).
    + split; [done|]. intros Hn. destruct Hn. by apply Hf.
    + split; [|done]. intros Hy. apply Hf in Hy. done.
Qed.

End loop_facts.




Lemma no_frame_pass_witness :
  @Lab9.run Demo.demo_float Demo.demo_net Lab9.shipped_rules (Lab9.initial [] ∅)
    [@Lab9.mkTick Demo.demo_float Demo.demo_net None true [] EmptyString None
       EmptyString None None 0 true;
     @Lab9.mkTick Demo.demo_float Demo.demo_net None false [] EmptyString None
       EmptyString None None 0 true]
  = (Lab9.initial [] ∅,
     [Lab9.Printed "[EXIT] Input EOS."; Lab9.LogInfo "Exit: input EOS"],
     Lab9.Terminated).
Proof.
  destruct (@no_frame_pass Demo.demo_float Demo.demo_net Lab9.shipped_rules
              (Lab9.initial [] ∅)
              (@Lab9.mkTick Demo.demo_float Demo.demo_net None true [] EmptyString None
                 EmptyString None None 0 true) eq_refl) as [_ Hstall].
  destruct (Hstall eq_refl) as [_ Hnext]. rewrite Hnext.
  apply (@no_frame_pass Demo.demo_float Demo.demo_net Lab9.shipped_rules
           (Lab9.initial [] ∅)
           (@Lab9.mkTick Demo.demo_float Demo.demo_net None false [] EmptyString None
              EmptyString None None 0 true) eq_refl).
  reflexivity.
Defined.

(** C8 as the specification words it fails on the text of the normal
    line: the code writes a blank between [Normal] and the colon. *)
Lemma detection_lines_counterexample :
  @Lab9.detection_line Demo.demo_float Demo.demo_net Lab9.shipped_rules
    ∅ (Demo.det 18 999) = "Normal : dog (99.9%)"
  /\ @Lab9.detection_line Demo.demo_float Demo.demo_net Lab9.shipped_rules
       ∅ (Demo.det 18 999) <> "Normal: dog (99.9%)".
Proof. split; [reflexivity|discriminate]. Qed.

Lemma detection_lines_witness :
  exists rest,
    (@Lab9.iteration Demo.demo_float Demo.demo_net Lab9.shipped_rules
       (Lab9.initial [] ∅)
       (Demo.tick (Some 7%nat) [Demo.det 18 999] None None)).1.2
    = (Lab9.Printed " Normal : dog (99.9%)" :: Lab9.LogInfo "Normal : dog (99.9%)"
       :: rest).
Proof.
  destruct (@detection_lines Demo.demo_float Demo.demo_net Lab9.shipped_rules
              (Lab9.initial [] ∅)
              (Demo.tick (Some 7%nat) [Demo.det 18 999] None None) 7%nat eq_refl)
    as [[rest Hrest] _].
  exists rest. exact Hrest.
Defined.

(** ** The aggregator *)

Section counts_facts.
Implicit Types (segs : list string) (cc : gmap string Z).

Lemma count_app c (a b : string) :
  Py.count c (a ++ b) = (Py.count c a + Py.count c b)%nat.
Proof. induction a as [|c' a IH]; simpl; [done|]. rewrite IH. lia. Qed.

(** Empty segments are passed over. *)
Lemma add_counts_filter segs cc :
  LogAnalysis.add_counts segs cc
  = LogAnalysis.add_counts (filter (fun kv => kv <> EmptyString) segs) cc.
Proof.
  revert cc. induction segs as [|kv segs IH]; intros cc; [done|].
  destruct (decide (kv = EmptyString)) as [->|Hkv].
  - rewrite filter_cons_False by (intros Hn; by apply Hn). simpl. apply IH.
  - rewrite filter_cons_True by done. simpl. repeat case_decide; try done.
    destruct (Py.split ":" kv) as [|k [|v [|? ?]]]; try done.
    destruct (Py.int v); [apply IH|done].
Qed.

Lemma add_counts_all_empty segs cc :
  Forall (fun kv => kv = EmptyString) segs -> LogAnalysis.add_counts segs cc = inr cc.
Proof.
  induction 1 as [|kv segs -> _ IH]; [done|]. simpl. apply IH.
Qed.

(** A segment with exactly one colon splits at it. *)
Lemma split_one_colon (k v : string) :
  Py.count ":" (k ++ String ":" v) = 1%nat ->
  Py.split ":" (k ++ String ":" v) = [k; v].
Proof.
  rewrite count_app. simpl. intros Hc.
  assert (Py.count ":" k = O /\ Py.count ":" v = O) as [Hk Hv] by lia.
  apply count_contains in Hk, Hv.
  by rewrite split_app_sep, split_no_sep.
Qed.

Lemma add_counts_malformed segs cc :
  (exists kv, kv ∈ segs /\ LogAnalysis.segment_malformed kv) ->
  exists e, LogAnalysis.add_counts segs cc = inl e.
Proof.
  intros (kv & Hin & Hne & Hbad). revert cc.
  induction segs as [|kv0 segs IH]; intros cc; [by apply elem_of_nil in Hin|].
  simpl. destruct (decide (kv0 = EmptyString)) as [->|Hkv0].
  - apply IH. apply elem_of_cons in Hin as [->|Hin]; done.
  - pose proof (split_length ":" kv0) as Hlen.
    destruct (Py.split ":" kv0) as [|k [|v [|? ?]]] eqn:Hsp; eauto.
    destruct (Py.int v) eqn:Hint; eauto.
    apply elem_of_cons in Hin as [->|Hin]; [|by apply IH].
    simpl in Hlen. destruct Hbad as [Hc|(k' & v' & -> & Hv')]; [lia|].
    rewrite split_one_colon in Hsp by lia. congruence.
Qed.

Lemma segment_nonempty (k v : string) : k ++ String ":" v <> EmptyString.
Proof. by destruct k. Qed.

(** Reading the segments the evidence writer renders. *)
Lemma add_counts_rendered (items : list (string * Z)) cc :
  Forall (fun kv => Py.contains ":" kv.1 = false) items ->
  LogAnalysis.add_counts ((fun kv => kv.1 ++ ":" ++ Py.str kv.2) <$> items) cc
  = inr (foldl (fun m kv => LogAnalysis.counter_add m kv.1 kv.2) cc items).
Proof.
  revert cc. induction items as [|[k v] items IH]; intros cc Hall; [done|].
  apply Forall_cons in Hall as [Hk Hall].
  simpl in *. change (k ++ ":" ++ Py.str v) with (k ++ String ":" (Py.str v)).
  rewrite decide_False by apply segment_nonempty.
  rewrite split_app_sep by done.
  rewrite split_no_sep by (by apply str_no_char).
  rewrite int_str. by apply IH.
Qed.

Lemma foldl_counter_add (items : list (string * Z)) cc :
  NoDup items.*1 ->
  (forall k, k ∈ items.*1 -> cc !! k = None) ->
  foldl (fun m kv => LogAnalysis.counter_add m kv.1 kv.2) cc items
  = list_to_map items ∪ cc.
Proof.
  revert cc. induction items as [|[k v] items IH]; intros cc Hnd Hfresh.
  - simpl. by rewrite (left_id_L ∅ (∪)).
  - rewrite fmap_cons in Hnd, Hfresh. apply NoDup_cons in Hnd as [Hk Hnd].
    simpl in Hk.
    assert (LogAnalysis.counter_add cc k v = <[k:=v]> cc) as Hadd.
    { unfold LogAnalysis.counter_add, Py.get.
      rewrite (Hfresh k) by (apply elem_of_cons; auto). simpl. by destruct v. }
    cbn [foldl list_to_map foldr fst snd uncurry]. rewrite Hadd, IH; [|done|].
    + symmetry. rewrite <- insert_union_l. apply insert_union_r.
      by apply not_elem_of_list_to_map_1.
    + intros k' Hk'. rewrite lookup_insert_ne by (intros ->; done).
      apply Hfresh. apply elem_of_cons. auto.
Qed.

Lemma sorted_items_perm (counts : gmap string Z) :
  Py.sorted_items counts ≡ₚ map_to_list counts.
Proof. apply merge_sort_Permutation. Qed.

Lemma contains_render sep (k : string) (v : Z) :
  sep <> ":"%char -> sep <> "-"%char -> Py.digit_of sep = None ->
  Py.contains sep k = false ->
  Py.contains sep (k ++ ":" ++ Py.str v) = false.
Proof.
  intros H1 H2 H3 Hk. rewrite contains_app, Hk. simpl.
  rewrite bool_decide_eq_false_2 by congruence. simpl. by apply str_no_char.
Qed.

(** C4: what the evidence writer renders of a count map, read back by
    the inner loop of the aggregator into an empty [Counter], is that map,
    for labels free of colons and semicolons. *)
Theorem counts_round_trip (counts : gmap string Z) :
  (forall k, k ∈ dom counts ->
     Py.contains ":" k = false /\ Py.contains ";" k = false) ->
  LogAnalysis.add_counts (Py.split ";" (Lab9.serialize_counts counts)) ∅
  = inr counts.
Proof.
  intros Hkeys. unfold Lab9.serialize_counts.
  pose proof (sorted_items_perm counts) as Hp.
  assert (forall kv, kv ∈ Py.sorted_items counts ->
            Py.contains ":" kv.1 = false /\ Py.contains ";" kv.1 = false) as Hit.
  { intros [k v] Hin. apply Hkeys. rewrite Hp in Hin.
    apply elem_of_map_to_list in Hin. apply elem_of_dom. eauto. }
  assert (NoDup (Py.sorted_items counts).*1) as Hnd.
  { rewrite Hp. apply NoDup_fst_map_to_list. }
  assert (list_to_map (Py.sorted_items counts) = counts) as Hmap.
  { rewrite (list_to_map_proper _ _ Hnd Hp). apply list_to_map_to_list. }
  destruct (decide (Py.sorted_items counts = [])) as [Hnil|Hne].
  - rewrite Hnil in *. simpl in *. by rewrite <- Hmap.
  - rewrite split_join.
    + rewrite add_counts_rendered.
      * rewrite foldl_counter_add; [|done|intros; apply lookup_empty].
        by rewrite (right_id_L ∅ (∪)), Hmap.
      * apply Forall_forall. intros x Hx. by apply Hit.
    + by destruct (Py.sorted_items counts).
    + apply Forall_fmap, Forall_forall. intros [k v] Hx. simpl.
      apply contains_render; try done. by apply Hit in Hx as [_ ?].
Qed.

End counts_facts.

Lemma counts_round_trip_witness :
  LogAnalysis.add_counts
    (Py.split ";" (Lab9.serialize_counts {[ "person" := 2; "chair" := 1 ]})) ∅
  = inr {[ "person" := 2; "chair" := 1 ]}.
Proof.
  apply (counts_round_trip {[ "person" := 2; "chair" := 1 ]}).
  intros k Hk. rewrite dom_insert_L, dom_singleton_L in Hk.
  apply elem_of_union in Hk as [Hk|Hk];
    apply elem_of_singleton in Hk as ->; split; reflexivity.
Defined.

(** The pairs of the counts field are in ascending order of label. *)
Lemma sorted_items_by_label (counts : gmap string Z) :
  Sorted String.le (Py.sorted_items counts).*1.
Proof.
  assert (Total Py.item_le) as Htotal.
  { intros a b. unfold Py.item_le.
    destruct (decide (a.1 = b.1)) as [Hab|Hab], (decide (b.1 = a.1)) as [Hba|Hba];
      try congruence; [lia|apply (total String.le)]. }
  apply (Sorted_fmap fst Py.item_le String.le).
  - intros a b. unfold Py.item_le.
    destruct (decide (a.1 = b.1)) as [->|]; [intros _; reflexivity|done].
  - apply (Sorted_merge_sort Py.item_le).
Qed.

Section aggregate_facts.
Context {dt : Datetime}.
Implicit Types (tb : LogAnalysis.Tables) (row : Csv.Row) (rows : list Csv.Row).

Lemma process_row_malformed tb row :
  LogAnalysis.counts_malformed (Csv.counts row)
  \/ strptime (Csv.timestamp row) = None ->
  exists e, LogAnalysis.process_row tb row = inl e.
Proof.
  unfold LogAnalysis.process_row. intros [Hbad|Hts].
  - destruct (add_counts_malformed _ (LogAnalysis.class_counts tb) Hbad) as [e ->].
    eauto.
  - destruct (LogAnalysis.add_counts _ _); [eauto|]. rewrite Hts. eauto.
Qed.

(** C6: a log with a row whose counts field or timestamp cannot be read
    makes the read loop raise, from whatever tables it is started: no
    tables are left to print a report from. *)
Theorem malformed_row_is_fatal tb rows row :
  row ∈ rows ->
  LogAnalysis.counts_malformed (Csv.counts row)
  \/ strptime (Csv.timestamp row) = None ->
  (exists e, LogAnalysis.aggregate_from tb rows = inl e)
  /\ (exists e, LogAnalysis.aggregate rows = inl e).
Proof.
  intros Hin Hbad.
  assert (forall tb', exists e, LogAnalysis.aggregate_from tb' rows = inl e) as Hall.
  { induction rows as [|row0 rows IH]; intros tb'; [by apply elem_of_nil in Hin|].
    simpl. apply elem_of_cons in Hin as [<-|Hin].
    - destruct (process_row_malformed tb' row Hbad) as [e ->]. eauto.
    - destruct (LogAnalysis.process_row tb' row0); [eauto|]. by apply IH. }
  split; apply Hall.
Qed.

(** C10, as the code has it: the empty segments of a counts field are
    passed over, so the field is read as its non-empty segments alone; a
    field with no other segments leaves the label totals as they were; and
    every row that is read adds one to the row count and to the count of
    its reason. *)
Theorem empty_segments_skipped tb row :
  LogAnalysis.add_counts (Py.split ";" (Csv.counts row)) (LogAnalysis.class_counts tb)
  = LogAnalysis.add_counts
      (filter (fun kv => kv <> EmptyString) (Py.split ";" (Csv.counts row)))
      (LogAnalysis.class_counts tb)
  /\ (Forall (fun kv => kv = EmptyString) (Py.split ";" (Csv.counts row)) ->
      forall t, strptime (Csv.timestamp row) = Some t ->
        LogAnalysis.process_row tb row
        = inr (LogAnalysis.mkTables
                 (LogAnalysis.total_rows tb + 1)
                 (LogAnalysis.counter_add (LogAnalysis.reasons tb) (Csv.reason row) 1)
                 (LogAnalysis.class_counts tb)
                 (LogAnalysis.counter_add (LogAnalysis.by_minute tb)
                    (strftime_minute t) 1)))
  /\ (forall tb', LogAnalysis.process_row tb row = inr tb' ->
        LogAnalysis.total_rows tb' = LogAnalysis.total_rows tb + 1
        /\ LogAnalysis.reasons tb'
           = LogAnalysis.counter_add (LogAnalysis.reasons tb) (Csv.reason row) 1).
Proof.
  split; [apply add_counts_filter|]. split.
  - intros Hall t Ht. unfold LogAnalysis.process_row.
    by rewrite add_counts_all_empty, Ht.
  - intros tb'. unfold LogAnalysis.process_row.
    destruct (LogAnalysis.add_counts _ _); [done|].
    destruct (strptime _); [|done]. by intros [= <-].
Qed.

End aggregate_facts.

Lemma malformed_row_is_fatal_witness :
  exists e,
    @LogAnalysis.aggregate Demo.demo_datetime
      [Csv.mkRow "2024-01-02 03:04:05" "Detected: chair" "chair" "chair:1" EmptyString;
       Csv.mkRow "2024-01-02 03:04:06" "Detected: chair" "chair;person"
         "chair:1;person:two" EmptyString]
    = inl e.
Proof.
  apply (@malformed_row_is_fatal Demo.demo_datetime LogAnalysis.empty_tables
           [Csv.mkRow "2024-01-02 03:04:05" "Detected: chair" "chair" "chair:1" EmptyString;
            Csv.mkRow "2024-01-02 03:04:06" "Detected: chair" "chair;person"
              "chair:1;person:two" EmptyString]
           (Csv.mkRow "2024-01-02 03:04:06" "Detected: chair" "chair;person"
              "chair:1;person:two" EmptyString)).
  - apply list_elem_of_further, list_elem_of_here.
  - left. exists "person:two". split.
    + apply list_elem_of_further, list_elem_of_here.
    + split; [discriminate|]. right. exists "person", "two". split; reflexivity.
Defined.

(** C10 as the specification words it fails for a field that has an
    empty segment beside others: the row does add to the label totals. *)
Lemma empty_segments_skipped_counterexample :
  EmptyString ∈ Py.split ";" "person:2;"
  /\ exists tb',
       @LogAnalysis.process_row Demo.demo_datetime LogAnalysis.empty_tables
         (Csv.mkRow "2024-01-02 03:04:05" "Detected: chair" "chair;person"
            "person:2;" EmptyString)
       = inr tb'
       /\ LogAnalysis.class_counts tb' !! "person" = Some 2
       /\ LogAnalysis.class_counts LogAnalysis.empty_tables !! "person" = None.
Proof.
  split; [apply list_elem_of_further, list_elem_of_here|].
  eexists. split; [reflexivity|]. split; reflexivity.
Qed.

(** The scenarios of the aggregator. *)
Example label_totals_scenario :
  exists tb,
    @LogAnalysis.aggregate Demo.demo_datetime
      [Csv.mkRow "2024-01-02 03:04:05" "A" "person" "person:2" EmptyString;
       Csv.mkRow "2024-01-02 03:04:06" "A" "chair;person" "person:1;chair:1" EmptyString]
    = inr tb
    /\ LogAnalysis.class_counts tb = {[ "person" := 3; "chair" := 1 ]}
    /\ LogAnalysis.total_rows tb = 2.
Proof. eexists. split; [reflexivity|]. split; [|reflexivity]. by vm_compute. Qed.

Example empty_counts_row_scenario :
  exists tb,
    @LogAnalysis.aggregate Demo.demo_datetime
      [Csv.mkRow "2024-01-02 03:04:05" "A" EmptyString EmptyString EmptyString;
       Csv.mkRow "2024-01-02 03:04:06" "A" EmptyString ";;" EmptyString]
    = inr tb
    /\ LogAnalysis.class_counts tb = ∅
    /\ LogAnalysis.total_rows tb = 2
    /\ LogAnalysis.reasons tb !! "A" = Some 2.
Proof. eexists. split; [reflexivity|]. by vm_compute. Qed.

Example bad_timestamp_scenario :
  @LogAnalysis.aggregate Demo.demo_datetime
    [Csv.mkRow "yesterday" "A" "person" "person:2" EmptyString]
  = inl (LogAnalysis.StrptimeError "yesterday").
Proof. reflexivity. Qed.

(** The scenarios of the rule evaluator. *)
Example chair_scenario :
  @Lab9.is_anomaly Lab9.shipped_rules {[ "chair" ]} {[ "chair" := 1 ]} = true
  /\ @Lab9.reason_txt Lab9.shipped_rules {[ "chair" ]} {[ "chair" := 1 ]}
     = "Detected: chair".
Proof. split; reflexivity. Qed.

Example four_persons_scenario :
  @Lab9.is_anomaly (Demo.capped_rules 3) {[ "person" ]} {[ "person" := 4 ]} = true
  /\ @Lab9.reason_txt (Demo.capped_rules 3) {[ "person" ]} {[ "person" := 4 ]}
     = "person_count>3 (=4)".
Proof. split; reflexivity. Qed.

Example two_persons_scenario :
  @Lab9.is_anomaly (Demo.capped_rules 3) {[ "person" ]} {[ "person" := 2 ]} = false.
Proof. reflexivity. Qed.

Example negative_cap_scenario :
  @Lab9.over_cap (Demo.capped_rules (-1)) ∅ = true.
Proof. reflexivity. Qed.

(** * Further properties *)

(** ** Labels and counts of a frame *)

Section more_py_facts.

Lemma lower_char_idemp (c : ascii) : Py.lower_char (Py.lower_char c) = Py.lower_char c.
Proof. by destruct c as [[] [] [] [] [] [] [] []]. Qed.

Lemma lower_idemp (s : string) : Py.lower (Py.lower s) = Py.lower s.
Proof. induction s as [|c s IH]; simpl; [done|]. by rewrite lower_char_idemp, IH. Qed.

Lemma lower_app (a b : string) : Py.lower (a ++ b) = Py.lower a ++ Py.lower b.
Proof. induction a as [|c a IH]; simpl; [done|]. by rewrite IH. Qed.

Lemma endswith_refl (s : string) : Py.endswith s s = true.
Proof.
  destruct s; cbn [Py.endswith]; apply orb_true_iff; left;
    by apply bool_decide_eq_true_2.
Qed.

Lemma endswith_app (a suffix : string) : Py.endswith suffix (a ++ suffix) = true.
Proof.
  induction a as [|c a IH].
  - apply endswith_refl.
  - change (String c a ++ suffix) with (String c (a ++ suffix)).
    cbn [Py.endswith]. rewrite IH. apply orb_true_r.
Qed.

(** The sum of the values after [d[k] = v]. *)
Lemma sum_values_insert (d : gmap string Z) (k : string) (v : Z) :
  Py.sum_values (<[k:=v]> d) = Py.sum_values d - Py.get d k 0 + v.
Proof.
  assert (forall (m : gmap string Z) i x, m !! i = None ->
            Py.sum_values (<[i:=x]> m) = x + Py.sum_values m) as Hfresh.
  { intros m i x Hi. unfold Py.sum_values.
    apply (map_fold_insert_L (fun _ v acc => v + acc)); [|done].
    intros. lia. }
  unfold Py.get. destruct (d !! k) as [x|] eqn:Hk; simpl.
  - rewrite <- (insert_delete_id d k x Hk) at 2.
    rewrite <- (insert_delete_eq d), !Hfresh by apply lookup_delete_eq. lia.
  - rewrite Hfresh by done. lia.
Qed.

Lemma sum_values_empty : Py.sum_values ∅ = 0.
Proof. apply map_fold_empty. Qed.

End more_py_facts.

Section frame_facts.
Context {fl : PyFloat} {net : DetectNet} {rules : Rules}.
Implicit Types (labels : list string) (t : Lab9.Tick) (st : Lab9.State).

Lemma count_labels_snoc labels (L : string) :
  Lab9.count_labels (labels ++ [L])
  = <[L := Py.get (Lab9.count_labels labels) L 0 + 1]> (Lab9.count_labels labels).
Proof. unfold Lab9.count_labels. by rewrite foldl_app. Qed.

Lemma count_labels_get labels (L : string) :
  Py.get (Lab9.count_labels labels) L 0
  = Z.of_nat (length (filter (fun x => x = L) labels)).
Proof.
  induction labels as [|x labels IH] using rev_ind; [done|].
  rewrite count_labels_snoc, filter_app, length_app. unfold Py.get in *.
  destruct (decide (x = L)) as [->|Hx].
  - rewrite lookup_insert_eq. simpl. rewrite filter_cons_True, filter_nil by done.
    simpl. lia.
  - rewrite lookup_insert_ne by done.
    rewrite filter_cons_False, filter_nil by done. simpl. lia.
Qed.

Lemma count_labels_dom labels :
  dom (Lab9.count_labels labels) = list_to_set labels.
Proof.
  induction labels as [|x labels IH] using rev_ind; [apply dom_empty_L|].
  rewrite count_labels_snoc, dom_insert_L, IH, list_to_set_app_L.
  rewrite list_to_set_cons, list_to_set_nil, (right_id_L ∅ (∪)).
  apply (comm_L (∪)).
Qed.

(** X1: [counts] holds, for every label, the number of times the label
    occurs among the detections (0 through [get] for a label that does not
    occur); its keys are exactly the labels of [present], and no stored
    count is below 1. *)
Theorem count_labels_spec labels :
  (forall L : string,
     Py.get (Lab9.count_labels labels) L 0
     = Z.of_nat (length (filter (fun x => x = L) labels)))
  /\ dom (Lab9.count_labels labels) = list_to_set labels
  /\ forall (L : string) (n : Z), Lab9.count_labels labels !! L = Some n -> 1 <= n.
Proof.
  split; [apply count_labels_get|]. split; [apply count_labels_dom|].
  intros L n Hn.
  assert (L ∈ labels) as Hin.
  { apply (elem_of_list_to_set (C := gset string)). rewrite <- count_labels_dom.
    apply elem_of_dom. eauto. }
  pose proof (count_labels_get labels L) as Hocc.
  unfold Py.get in Hocc. rewrite Hn in Hocc. simpl in Hocc. rewrite Hocc.
  assert (L ∈ filter (fun x => x = L) labels) as Hf by (by apply list_elem_of_filter).
  destruct (filter _ labels); [by apply elem_of_nil in Hf|]. simpl. lia.
Qed.

(** X2: the counts of a frame add up to the number of its detections. *)
Theorem count_labels_total t :
  Py.sum_values (Lab9.frame_counts t) = Z.of_nat (length (Lab9.detections t)).
Proof.
  unfold Lab9.frame_counts, Lab9.labels_of.
  rewrite <- (length_fmap (fun d => Py.lower (GetClassDesc (Lab9.ClassID d)))).
  generalize ((fun d => Py.lower (GetClassDesc (Lab9.ClassID d))) <$> Lab9.detections t).
  intros labels. induction labels as [|x labels IH] using rev_ind.
  - apply sum_values_empty.
  - rewrite count_labels_snoc, sum_values_insert, IH, length_app. simpl. lia.
Qed.

(** X3: the labels field and the counts field of a row name the same
    labels in the same order. *)
Theorem row_fields_agree t :
  (Py.sorted_items (Lab9.frame_counts t)).*1
  = Py.sorted (elements (Lab9.frame_present t)).
Proof.
  apply (Sorted_unique String.le).
  - apply sorted_items_by_label.
  - apply sorted_Sorted.
  - unfold Py.sorted. rewrite merge_sort_Permutation, sorted_items_perm.
    apply NoDup_Permutation; [apply NoDup_fst_map_to_list|apply NoDup_elements|].
    intros x. rewrite elem_of_elements. unfold Lab9.frame_present.
    rewrite <- count_labels_dom.
    unfold Lab9.frame_counts. rewrite elem_of_dom, list_elem_of_fmap. split.
    + intros ([k v] & -> & Hkv). apply elem_of_map_to_list in Hkv. eauto.
    + intros [v Hv]. exists (x, v). split; [done|]. by apply elem_of_map_to_list.
Qed.

Lemma labels_of_lower t (x : string) :
  x ∈ Lab9.frame_present t -> Py.lower x = x.
Proof.
  unfold Lab9.frame_present, Lab9.labels_of. rewrite elem_of_list_to_set.
  intros (d & -> & _)%list_elem_of_fmap. apply lower_idemp.
Qed.

Lemma bad_labels_elem (present : gset string) (x : string) :
  x ∈ Lab9.bad_labels present <-> x ∈ present /\ x ∈ ANOMALY_SET.
Proof.
  unfold Lab9.bad_labels, Py.sorted.
  by rewrite merge_sort_Permutation, elem_of_elements, elem_of_intersection.
Qed.

(** X4: a string that [lower()] would change is the label of no detection,
    so an entry of [ANOMALY_SET] like that is never among the labels of the
    forbidden-class reason, whatever else the set holds: every label of
    that reason is an entry that [lower()] leaves as it is.  When every
    entry is changed by [lower()] the forbidden-class rule never fires. *)
Theorem uppercase_entry_never_matches t :
  (forall x : string,
     Py.lower x <> x ->
     (x ∉ Lab9.frame_present t) /\ (x ∉ Lab9.bad_labels (Lab9.frame_present t)))
  /\ (forall x : string,
        x ∈ Lab9.bad_labels (Lab9.frame_present t) ->
        x ∈ ANOMALY_SET /\ Py.lower x = x)
  /\ ((forall x : string, x ∈ ANOMALY_SET -> Py.lower x <> x) ->
      Lab9.bad_labels (Lab9.frame_present t) = []).
Proof.
  split; [|split].
  - intros x Hx. split.
    + intros Hin. by apply labels_of_lower in Hin.
    + intros [Hin _]%bad_labels_elem. by apply labels_of_lower in Hin.
  - intros x [Hin Ha]%bad_labels_elem. split; [done|]. by eapply labels_of_lower.
  - intros Hup. apply bad_labels_nil_iff. apply set_eq. intros x.
    rewrite elem_of_intersection. split; [|by intros ?%elem_of_empty].
    intros [Hx Ha]. destruct (Hup x Ha). by eapply labels_of_lower.
Qed.

Lemma join_reasons_head (r : string) (rs : list string) :
  exists rest, Py.join " | " (r :: rs) = r ++ rest.
Proof.
  destruct rs as [|r' rs]; simpl; [|eauto].
  exists EmptyString. induction r as [|c r IH]; [done|].
  change (String c r ++ EmptyString) with (String c (r ++ EmptyString)).
  by rewrite <- IH.
Qed.

(** X5: the text [No anomaly classes present] is the reason exactly of
    the frames that are not anomalous. *)
Theorem fallback_reason_iff (present : gset string) (counts : gmap string Z) :
  Lab9.reason_txt present counts = "No anomaly classes present"
  <-> Lab9.is_anomaly present counts = false.
Proof.
  rewrite is_anomaly_false_reasons. unfold Lab9.reason_txt.
  pose proof (reasons_of_eq present counts) as Heq.
  destruct (Lab9.reasons_of present counts) as [|r rs] eqn:Hr; [done|].
  split; [|done]. intros Htxt. exfalso.
  destruct (join_reasons_head r rs) as [rest Hj]. rewrite Hj in Htxt.
  destruct (decide (present ∩ ANOMALY_SET = ∅)), (Lab9.over_cap counts);
    simplify_eq/=.
Qed.

End frame_facts.

Section uri_facts.

Lemma prefix_app (a b : string) : String.prefix a (a ++ b) = true.
Proof.
  induction a as [|c a IH]; simpl; [by destruct b|].
  destruct (ascii_dec c c); [done|congruence].
Qed.

(** X6: [normalize_uri] puts [v4l2://] before a path that starts with
    [/dev/video], leaves every other string alone, and applied a second
    time changes nothing. *)
Theorem normalize_uri_idemp (s : string) :
  (forall n : string,
     Lab9.normalize_uri ("/dev/video" ++ n) = "v4l2:///dev/video" ++ n)
  /\ (String.prefix "/dev/video" s = false -> Lab9.normalize_uri s = s)
  /\ Lab9.normalize_uri (Lab9.normalize_uri s) = Lab9.normalize_uri s.
Proof.
  split; [|split].
  - intros n. unfold Lab9.normalize_uri.
    by rewrite (prefix_app "/dev/video" n).
  - intros Hp. unfold Lab9.normalize_uri. by rewrite Hp.
  - unfold Lab9.normalize_uri.
    destruct (String.prefix "/dev/video" s) eqn:Hp; [reflexivity|].
    by rewrite Hp.
Qed.

End uri_facts.

(** ** The loop over many passes *)

Section run_facts.
Context {fl : PyFloat} {net : DetectNet} {rules : Rules}.
Implicit Types (st : Lab9.State) (t : Lab9.Tick) (ticks : list Lab9.Tick) (img : Img).

(** Where a pass saves its snapshot. *)
Lemma write_evidence_snapshots st t img reason present counts :
  Lab9.saves_attempted (Lab9.write_evidence st t img reason present counts).2
  = [Py.path_join Lab9.SNAPSHOT_DIR ("anomaly_" ++ Lab9.snapshot_clock t ++ ".jpg")]
  /\ Lab9.snapshots (Lab9.write_evidence st t img reason present counts).1
     = match Lab9.save_error t with
       | Some _ => Lab9.snapshots st
       | None =>
           <[Py.path_join Lab9.SNAPSHOT_DIR
               ("anomaly_" ++ Lab9.snapshot_clock t ++ ".jpg") := img]>
             (Lab9.snapshots st)
       end.
Proof.
  unfold Lab9.write_evidence.
  by destruct (Lab9.save_error t), (Lab9.writerow_error t), (Lab9.flush_error t).
Qed.

Lemma log_detections_no_close counts dets :
  Forall (fun e => e <> Lab9.CloseCsv) (Lab9.log_detections counts dets).
Proof. induction dets as [|d dets IH]; simpl; repeat constructor; done. Qed.

Lemma write_evidence_no_close st t img reason present counts :
  Forall (fun e => e <> Lab9.CloseCsv)
    (Lab9.write_evidence st t img reason present counts).2.
Proof.
  unfold Lab9.write_evidence.
  destruct (Lab9.save_error t), (Lab9.writerow_error t), (Lab9.flush_error t);
    simpl; repeat constructor; done.
Qed.

Lemma iteration_no_close st t :
  Forall (fun e => e <> Lab9.CloseCsv) (Lab9.iteration st t).1.2.
Proof.
  unfold Lab9.iteration. destruct (Lab9.capture t) as [img|].
  - pose proof (write_evidence_no_close st t img
      (Lab9.reason_txt (list_to_set (Lab9.labels_of (Lab9.detections t)))
         (Lab9.count_labels (Lab9.labels_of (Lab9.detections t))))
      (list_to_set (Lab9.labels_of (Lab9.detections t)))
      (Lab9.count_labels (Lab9.labels_of (Lab9.detections t)))) as Hw.
    destruct (Lab9.is_anomaly _ _).
    + destruct (Lab9.write_evidence _ _ _ _ _ _) as [st' evs].
      destruct (Lab9.display_streaming t); simpl in *;
        rewrite ?Forall_app; repeat split;
        auto using log_detections_no_close; repeat constructor; done.
    + destruct (Lab9.display_streaming t); simpl in *;
        rewrite ?Forall_app; repeat split;
        auto using log_detections_no_close; repeat constructor; done.
  - destruct (Lab9.camera_streaming t); simpl; repeat constructor; done.
Qed.

(** What one pass, with or without a frame, does to the state. *)
Lemma pass_effects st t :
  Lab9.anomaly_count (Lab9.iteration st t).1.1
  = Lab9.anomaly_count st
    + Z.of_nat (length (Lab9.rows_attempted (Lab9.iteration st t).1.2))
  /\ length (Lab9.saves_attempted (Lab9.iteration st t).1.2)
     = length (Lab9.rows_attempted (Lab9.iteration st t).1.2)
  /\ (exists l,
        Lab9.csv_rows (Lab9.iteration st t).1.1 = (Lab9.csv_rows st ++ l)%list
        /\ l `sublist_of` Lab9.rows_attempted (Lab9.iteration st t).1.2
        /\ (Lab9.writerow_error t = None ->
            l = Lab9.rows_attempted (Lab9.iteration st t).1.2))
  /\ Lab9.last_reason (Lab9.iteration st t).1.1
     = from_option Csv.reason (Lab9.last_reason st)
         (last (Lab9.rows_attempted (Lab9.iteration st t).1.2))
  /\ (forall p, p ∉ Lab9.saves_attempted (Lab9.iteration st t).1.2 ->
        Lab9.snapshots (Lab9.iteration st t).1.1 !! p = Lab9.snapshots st !! p)
  /\ (forall p, p ∈ Lab9.saves_attempted (Lab9.iteration st t).1.2 ->
        p = Py.path_join Lab9.SNAPSHOT_DIR
              ("anomaly_" ++ Lab9.snapshot_clock t ++ ".jpg")).
Proof.
  destruct (Lab9.capture t) as [img|] eqn:Hc.
  - destruct (iteration_evidence st t img Hc) as (Hst & Hrows & Hsaves).
    rewrite Hst, Hrows, Hsaves. clear Hst Hrows Hsaves.
    destruct (Lab9.frame_anomalous t).
    + destruct (write_evidence_rows st t img
        (Lab9.reason_txt (Lab9.frame_present t) (Lab9.frame_counts t))
        (Lab9.frame_present t) (Lab9.frame_counts t))
        as (row & Hrow & Hreason & _ & _ & _ & Hcsv & Hcnt & Hlast).
      destruct (write_evidence_snapshots st t img
        (Lab9.reason_txt (Lab9.frame_present t) (Lab9.frame_counts t))
        (Lab9.frame_present t) (Lab9.frame_counts t)) as (Hsv & Hsnap).
      rewrite Hrow, Hcsv, Hcnt, Hlast, Hsv, Hsnap. simpl.
      split; [lia|]. split; [done|]. split; [|split; [done|split]].
      * eexists. split; [done|]. split; [|by intros ->].
        destruct (Lab9.writerow_error t); [apply sublist_nil_l|done].
      * intros p Hp. destruct (Lab9.save_error t); [done|].
        apply lookup_insert_ne. intros <-. apply Hp, list_elem_of_here.
      * intros p Hp. by apply list_elem_of_singleton in Hp.
    + simpl. split; [lia|]. split; [done|]. split; [|split; [done|split]].
      * exists []. by rewrite app_nil_r.
      * done.
      * intros p Hp. by apply elem_of_nil in Hp.
  - unfold Lab9.iteration. rewrite Hc.
    destruct (Lab9.camera_streaming t); simpl;
      (split; [lia|]; split; [done|]; split; [|split; [done|split]];
       [exists []; by rewrite app_nil_r|done|intros p Hp; by apply elem_of_nil in Hp]).
Qed.

Lemma run_cons st t ticks :
  Lab9.run st (t :: ticks)
  = match (Lab9.iteration st t).2 with
    | Lab9.Break =>
        ((Lab9.iteration st t).1.1, (Lab9.iteration st t).1.2, Lab9.Terminated)
    | Lab9.Continue =>
        ((Lab9.run (Lab9.iteration st t).1.1 ticks).1.1,
         ((Lab9.iteration st t).1.2
          ++ (Lab9.run (Lab9.iteration st t).1.1 ticks).1.2)%list,
         (Lab9.run (Lab9.iteration st t).1.1 ticks).2)
    end.
Proof.
  simpl. destruct (Lab9.iteration st t) as [[st' evs] []]; simpl; [|done].
  by destruct (Lab9.run st' ticks) as [[? ?] ?].
Qed.

(** X7: over any run, [anomaly_count] grows by exactly the number of rows
    offered to the structured log, and as many snapshots are attempted. *)
Theorem run_counter st ticks :
  Lab9.anomaly_count (Lab9.run st ticks).1.1
  = Lab9.anomaly_count st
    + Z.of_nat (length (Lab9.rows_attempted (Lab9.run st ticks).1.2))
  /\ length (Lab9.saves_attempted (Lab9.run st ticks).1.2)
     = length (Lab9.rows_attempted (Lab9.run st ticks).1.2).
Proof.
  revert st. induction ticks as [|t ticks IH]; intros st; [simpl; split; [lia|done]|].
  rewrite run_cons. destruct (pass_effects st t) as (Hc & Hs & _).
  destruct (Lab9.iteration st t).2; simpl; [|done].
  destruct (IH (Lab9.iteration st t).1.1) as [IH1 IH2].
  rewrite rows_attempted_app, saves_attempted_app, !length_app, IH1, Hc, IH2, Hs.
  split; lia.
Qed.


(** X9: after any run, [last_reason] is the reason of the last row
    offered to the log, and is what it was before when none was offered. *)
Theorem run_last_reason st ticks :
  Lab9.last_reason (Lab9.run st ticks).1.1
  = from_option Csv.reason (Lab9.last_reason st)
      (last (Lab9.rows_attempted (Lab9.run st ticks).1.2)).
Proof.
  revert st. induction ticks as [|t ticks IH]; intros st; [done|].
  rewrite run_cons. destruct (pass_effects st t) as (_ & _ & _ & Hlast & _).
  destruct (Lab9.iteration st t).2; simpl; [|done].
  rewrite IH, Hlast, rows_attempted_app.
  destruct (Lab9.rows_attempted (Lab9.run _ ticks).1.2) as [|r rs] eqn:Hr using rev_ind.
  - by rewrite app_nil_r.
  - by rewrite app_assoc, !last_snoc.
Qed.

(** X10: a run never removes or alters a file of the snapshot directory
    other than at the paths it saves to, and each of those is
    [anomaly_<clock>.jpg] under [SNAPSHOT_DIR], a name the aggregator counts
    as a snapshot. *)
Theorem run_snapshot_files st ticks :
  (forall p, p ∉ Lab9.saves_attempted (Lab9.run st ticks).1.2 ->
     Lab9.snapshots (Lab9.run st ticks).1.1 !! p = Lab9.snapshots st !! p)
  /\ (forall p, p ∈ Lab9.saves_attempted (Lab9.run st ticks).1.2 ->
        exists clock,
          p = Lab9.SNAPSHOT_DIR ++ "/" ++ "anomaly_" ++ clock ++ ".jpg"
          /\ LogAnalysis.snapshots_count ["anomaly_" ++ clock ++ ".jpg"] = 1%nat).
Proof.
  revert st. induction ticks as [|t ticks IH]; intros st.
  { simpl. split; [done|]. intros p Hp. by apply elem_of_nil in Hp. }
  rewrite run_cons. destruct (pass_effects st t) as (_ & _ & _ & _ & Hkeep & Hpath).
  assert (forall p, p ∈ Lab9.saves_attempted (Lab9.iteration st t).1.2 ->
            exists clock,
              p = Lab9.SNAPSHOT_DIR ++ "/" ++ "anomaly_" ++ clock ++ ".jpg"
              /\ LogAnalysis.snapshots_count ["anomaly_" ++ clock ++ ".jpg"] = 1%nat)
    as Hjpg.
  { intros p Hp. exists (Lab9.snapshot_clock t). split; [by apply Hpath|].
    unfold LogAnalysis.snapshots_count. rewrite filter_cons_True; [done|].
    change ("anomaly_" ++ Lab9.snapshot_clock t ++ ".jpg")
      with (("anomaly_" ++ Lab9.snapshot_clock t) ++ ".jpg").
    rewrite lower_app. apply endswith_app. }
  destruct (Lab9.iteration st t).2; simpl; [|done].
  destruct (IH (Lab9.iteration st t).1.1) as [IH1 IH2].
  rewrite saves_attempted_app. split.
  - intros p Hp. rewrite not_elem_of_app in Hp. destruct Hp as [Hp1 Hp2].
    by rewrite IH1, Hkeep.
  - intros p [Hp|Hp]%elem_of_app; auto.
Qed.

(** X11: a pass that got a frame and finds the display closed still does
    all its work on that frame, rendering included, and then ends the run;
    the passes after it never happen. *)
Theorem display_closed_ends_run st t img ticks :
  Lab9.capture t = Some img ->
  Lab9.display_streaming t = false ->
  Lab9.run st (t :: ticks)
  = ((Lab9.iteration st t).1.1, (Lab9.iteration st t).1.2, Lab9.Terminated)
  /\ exists evs hud,
       (Lab9.iteration st t).1.2
       = (evs ++ [Lab9.Render img; Lab9.SetStatus hud;
                  Lab9.Printed "[EXIT] Output closed.";
                  Lab9.LogInfo "Exit: output closed"])%list.
Proof.
  intros Hc Hd. rewrite run_cons. unfold Lab9.iteration. rewrite Hc, Hd.
  destruct (Lab9.is_anomaly _ _); simpl.
  - destruct (Lab9.write_evidence _ _ _ _ _ _) as [st' evs]. simpl.
    split; [done|].
    exists (Lab9.log_detections
              (Lab9.count_labels (Lab9.labels_of (Lab9.detections t)))
              (Lab9.detections t) ++ evs)%list.
    eexists. rewrite <- !app_assoc. reflexivity.
  - split; [done|].
    exists (Lab9.log_detections
              (Lab9.count_labels (Lab9.labels_of (Lab9.detections t)))
              (Lab9.detections t)).
    eexists. rewrite <- !app_assoc. reflexivity.
Qed.

(** X12: on every way out of the loop through [break], the log file is
    closed once, after every other effect; while the loop is still running
    it is not closed. *)
Theorem main_closes_once (rows : list Csv.Row) (files : gmap string Img) ticks :
  match (Lab9.main rows files ticks).2 with
  | Lab9.Terminated =>
      exists evs,
        (Lab9.main rows files ticks).1.2 = (evs ++ [Lab9.CloseCsv])%list
        /\ Forall (fun e => e <> Lab9.CloseCsv) evs
  | Lab9.Running =>
      Forall (fun e => e <> Lab9.CloseCsv) (Lab9.main rows files ticks).1.2
  end.
Proof.
  assert (forall st, Forall (fun e => e <> Lab9.CloseCsv) (Lab9.run st ticks).1.2)
    as Hrun.
  { induction ticks as [|t ticks IH]; intros st; [constructor|].
    rewrite run_cons. pose proof (iteration_no_close st t).
    destruct (Lab9.iteration st t).2; simpl; [|done].
    apply Forall_app. auto. }
  unfold Lab9.main. specialize (Hrun (Lab9.initial rows files)).
  destruct (Lab9.run _ ticks) as [[st evs] []]; simpl in *; eauto.
Qed.

End run_facts.

Section collision_facts.
Context {fl : PyFloat} {net : DetectNet} {rules : Rules}.
Implicit Types (st : Lab9.State) (t : Lab9.Tick) (img : Img).

(** X13: two anomalous frames stamped with the same second are saved to
    the same path: both offer a row, and the snapshot directory ends up
    with the second frame alone at that path. *)
Theorem same_second_overwrites st t1 t2 img1 img2 :
  Lab9.capture t1 = Some img1 -> Lab9.capture t2 = Some img2 ->
  Lab9.frame_anomalous t1 = true -> Lab9.frame_anomalous t2 = true ->
  Lab9.save_error t1 = None -> Lab9.save_error t2 = None ->
  Lab9.snapshot_clock t1 = Lab9.snapshot_clock t2 ->
  let st1 := (Lab9.iteration st t1).1.1 in
  let st2 := (Lab9.iteration st1 t2).1.1 in
  Lab9.snapshots st2
  = <[Py.path_join Lab9.SNAPSHOT_DIR
        ("anomaly_" ++ Lab9.snapshot_clock t1 ++ ".jpg") := img2]>
      (Lab9.snapshots st)
  /\ Lab9.anomaly_count st2 = Lab9.anomaly_count st + 2.
Proof.
  intros Hc1 Hc2 Ha1 Ha2 Hs1 Hs2 Hclock st1 st2. subst st1 st2.
  destruct (iteration_evidence (Lab9.iteration st t1).1.1 t2 img2 Hc2) as (-> & _ & _).
  destruct (iteration_evidence st t1 img1 Hc1) as (-> & _ & _).
  rewrite Ha1, Ha2.
  repeat match goal with
  | |- context [Lab9.write_evidence ?s ?t ?i ?r ?p ?c] =>
      let H1 := fresh in let H2 := fresh in
      destruct (write_evidence_snapshots s t i r p c) as [_ H1];
      destruct (write_evidence_rows s t i r p c)
        as (? & _ & _ & _ & _ & _ & _ & H2 & _);
      rewrite ?H1, ?H2; clear H1 H2
  end.
  rewrite Hs1, Hs2, <- Hclock, insert_insert_eq. split; [done|lia].
Qed.

End collision_facts.

(** ** Reading counts into totals that are not empty *)

Section additive_facts.
Implicit Types (segs : list string) (cc m : gmap string Z).

Lemma counter_add_get cc (k L : string) (n : Z) :
  Py.get (LogAnalysis.counter_add cc k n) L 0
  = Py.get cc L 0 + (if decide (k = L) then n else 0).
Proof.
  unfold LogAnalysis.counter_add, Py.get.
  destruct (decide (k = L)) as [->|Hk].
  - by rewrite lookup_insert_eq.
  - rewrite lookup_insert_ne by done. lia.
Qed.

(** Reading the same segments into two different totals. *)
Lemma add_counts_shift segs cc1 cc2 :
  match LogAnalysis.add_counts segs cc1 with
  | inl e => LogAnalysis.add_counts segs cc2 = inl e
  | inr m1 =>
      exists m2,
        LogAnalysis.add_counts segs cc2 = inr m2
        /\ forall L : string,
             Py.get m2 L 0 - Py.get cc2 L 0 = Py.get m1 L 0 - Py.get cc1 L 0
  end.
Proof.
  revert cc1 cc2. induction segs as [|kv segs IH]; intros cc1 cc2; simpl.
  - exists cc2. split; [done|]. intros L. lia.
  - destruct (decide (kv = EmptyString)); [apply IH|].
    destruct (Py.split ":" kv) as [|k [|v [|? ?]]]; try done.
    destruct (Py.int v) as [cnt|]; [|done].
    specialize (IH (LogAnalysis.counter_add cc1 k cnt)
                   (LogAnalysis.counter_add cc2 k cnt)).
    destruct (LogAnalysis.add_counts segs (LogAnalysis.counter_add cc1 k cnt));
      [done|].
    destruct IH as (m2 & -> & Hm2). exists m2. split; [done|].
    intros L. specialize (Hm2 L). rewrite !counter_add_get in Hm2. lia.
Qed.

(** X14: whether a counts field can be read does not depend on the
    totals gathered so far, and reading it adds to each label's total what
    the field alone amounts to for that label. *)
Theorem add_counts_additive segs cc :
  match LogAnalysis.add_counts segs ∅ with
  | inl e => LogAnalysis.add_counts segs cc = inl e
  | inr m =>
      exists cc',
        LogAnalysis.add_counts segs cc = inr cc'
        /\ forall L : string, Py.get cc' L 0 = Py.get cc L 0 + Py.get m L 0
  end.
Proof.
  pose proof (add_counts_shift segs ∅ cc) as Hgen.
  destruct (LogAnalysis.add_counts segs ∅) as [e|m]; [done|].
  destruct Hgen as (cc' & -> & Hcc'). exists cc'. split; [done|].
  intros L. specialize (Hcc' L). unfold Py.get in Hcc' at 4.
  rewrite lookup_empty in Hcc'. simpl in Hcc'. lia.
Qed.

Lemma foldl_counter_add_get (items : list (string * Z)) cc (L : string) :
  NoDup items.*1 ->
  Py.get (foldl (fun m kv => LogAnalysis.counter_add m kv.1 kv.2) cc items) L 0
  = Py.get cc L 0 + Py.get (list_to_map items) L 0.
Proof.
  revert cc. induction items as [|[k v] items IH]; intros cc Hnd.
  - simpl. unfold Py.get at 3. rewrite lookup_empty. simpl. lia.
  - rewrite fmap_cons in Hnd. apply NoDup_cons in Hnd as [Hk Hnd]. simpl in Hk.
    cbn [foldl list_to_map foldr fst snd uncurry].
    rewrite IH, counter_add_get by done. unfold Py.get at 4.
    destruct (decide (k = L)) as [->|HkL].
    + rewrite lookup_insert_eq. simpl. unfold Py.get at 2.
      rewrite (not_elem_of_list_to_map_1 _ _ Hk). simpl. lia.
    + rewrite lookup_insert_ne by done. unfold Py.get. lia.
Qed.

(** Reading what the evidence writer renders into any totals. *)
Lemma serialize_counts_read (counts cc : gmap string Z) :
  (forall k, k ∈ dom counts ->
     Py.contains ":" k = false /\ Py.contains ";" k = false) ->
  exists cc',
    LogAnalysis.add_counts (Py.split ";" (Lab9.serialize_counts counts)) cc = inr cc'
    /\ forall L : string, Py.get cc' L 0 = Py.get cc L 0 + Py.get counts L 0.
Proof.
  intros Hkeys. unfold Lab9.serialize_counts.
  pose proof (sorted_items_perm counts) as Hp.
  assert (forall kv, kv ∈ Py.sorted_items counts ->
            Py.contains ":" kv.1 = false /\ Py.contains ";" kv.1 = false) as Hit.
  { intros [k v] Hin. apply Hkeys. rewrite Hp in Hin.
    apply elem_of_map_to_list in Hin. apply elem_of_dom. eauto. }
  assert (NoDup (Py.sorted_items counts).*1) as Hnd.
  { rewrite Hp. apply NoDup_fst_map_to_list. }
  assert (list_to_map (Py.sorted_items counts) = counts) as Hmap.
  { rewrite (list_to_map_proper _ _ Hnd Hp). apply list_to_map_to_list. }
  destruct (decide (Py.sorted_items counts = [])) as [Hnil|Hne].
  - rewrite Hnil in *. simpl in *. exists cc. split; [done|].
    intros L. rewrite <- Hmap. unfold Py.get at 3. rewrite lookup_empty. simpl. lia.
  - rewrite split_join.
    + rewrite add_counts_rendered.
      * eexists. split; [done|]. intros L.
        by rewrite foldl_counter_add_get, Hmap.
      * apply Forall_forall. intros x Hx. by apply Hit.
    + by destruct (Py.sorted_items counts).
    + apply Forall_fmap, Forall_forall. intros [k v] Hx. simpl.
      apply contains_render; try done. by apply Hit in Hx as [_ ?].
Qed.

End additive_facts.

(** ** From the loop to the aggregator *)

Section pipeline_facts.
Context {fl : PyFloat} {net : DetectNet} {rules : Rules} {dt : Datetime}.
Implicit Types (st : Lab9.State) (t : Lab9.Tick) (img : Img) (tb : LogAnalysis.Tables).

(** X15: the row a pass offers to the log is one the aggregator reads
    without error, provided no label of the frame holds a colon or a
    semicolon and [strptime] accepts the text of the clock: the row count
    goes up by one and every label's total by the number of detections
    with that label. *)
Theorem loop_row_read_back st t img tb tm :
  Lab9.capture t = Some img ->
  Lab9.frame_anomalous t = true ->
  (forall L, L ∈ Lab9.labels_of (Lab9.detections t) ->
     Py.contains ":" L = false /\ Py.contains ";" L = false) ->
  strptime (Lab9.row_clock t) = Some tm ->
  exists row tb',
    Lab9.rows_attempted (Lab9.iteration st t).1.2 = [row]
    /\ LogAnalysis.process_row tb row = inr tb'
    /\ LogAnalysis.total_rows tb' = LogAnalysis.total_rows tb + 1
    /\ forall L : string,
         Py.get (LogAnalysis.class_counts tb') L 0
         = Py.get (LogAnalysis.class_counts tb) L 0
           + Z.of_nat (length (filter (fun x => x = L)
                                 (Lab9.labels_of (Lab9.detections t)))).
Proof.
  intros Hc Ha Hlab Htm.
  destruct (iteration_evidence st t img Hc) as (_ & Hev & _).
  rewrite Ha in Hev. rewrite Hev. clear Hev.
  destruct (write_evidence_rows st t img
    (Lab9.reason_txt (Lab9.frame_present t) (Lab9.frame_counts t))
    (Lab9.frame_present t) (Lab9.frame_counts t))
    as (row & Hrow & _ & Hts & Hcounts & _).
  destruct (serialize_counts_read (Lab9.frame_counts t) (LogAnalysis.class_counts tb))
    as (cc' & Hread & Hget).
  { intros k Hk. apply Hlab. unfold Lab9.frame_counts in Hk.
    rewrite count_labels_dom in Hk. by apply elem_of_list_to_set in Hk. }
  exists row. eexists. split; [done|].
  unfold LogAnalysis.process_row. rewrite Hcounts, Hread, Hts, Htm.
  split; [done|]. split; [done|]. intros L. simpl.
  rewrite Hget. unfold Lab9.frame_counts. by rewrite count_labels_get.
Qed.

End pipeline_facts.

(** ** The tables of the aggregator *)

Section tables_facts.
Context {dt : Datetime}.
Implicit Types (tb : LogAnalysis.Tables) (row : Csv.Row) (rows : list Csv.Row).

Lemma sum_values_counter_add (c : gmap string Z) (k : string) (n : Z) :
  Py.sum_values (LogAnalysis.counter_add c k n) = Py.sum_values c + n.
Proof. unfold LogAnalysis.counter_add. rewrite sum_values_insert. lia. Qed.

Lemma process_row_inr tb row tb' :
  LogAnalysis.process_row tb row = inr tb' ->
  exists cc tm,
    LogAnalysis.add_counts (Py.split ";" (Csv.counts row)) (LogAnalysis.class_counts tb)
    = inr cc
    /\ strptime (Csv.timestamp row) = Some tm
    /\ tb' = LogAnalysis.mkTables (LogAnalysis.total_rows tb + 1)
               (LogAnalysis.counter_add (LogAnalysis.reasons tb) (Csv.reason row) 1)
               cc
               (LogAnalysis.counter_add (LogAnalysis.by_minute tb)
                  (strftime_minute tm) 1).
Proof.
  unfold LogAnalysis.process_row.
  destruct (LogAnalysis.add_counts _ _) as [|cc]; [done|].
  destruct (strptime _) as [tm|]; [|done]. intros [= <-]. eauto.
Qed.

(** X16: when the read loop gets through, the row count is the number of
    rows, and the counts of the reasons table add up to it, as do those of
    the minutes table. *)
Theorem aggregate_counts_rows rows tb :
  LogAnalysis.aggregate rows = inr tb ->
  LogAnalysis.total_rows tb = Z.of_nat (length rows)
  /\ Py.sum_values (LogAnalysis.reasons tb) = Z.of_nat (length rows)
  /\ Py.sum_values (LogAnalysis.by_minute tb) = Z.of_nat (length rows).
Proof.
  assert (forall tb0,
            LogAnalysis.aggregate_from tb0 rows = inr tb ->
            LogAnalysis.total_rows tb
            = LogAnalysis.total_rows tb0 + Z.of_nat (length rows)
            /\ Py.sum_values (LogAnalysis.reasons tb)
               = Py.sum_values (LogAnalysis.reasons tb0) + Z.of_nat (length rows)
            /\ Py.sum_values (LogAnalysis.by_minute tb)
               = Py.sum_values (LogAnalysis.by_minute tb0) + Z.of_nat (length rows))
    as Hgen.
  { induction rows as [|row rows IH]; intros tb0; simpl.
    - intros [= <-]. lia.
    - destruct (LogAnalysis.process_row tb0 row) as [|tb1] eqn:Hrow; [done|].
      intros Hrest. apply IH in Hrest as (H1 & H2 & H3).
      apply process_row_inr in Hrow as (cc & tm & _ & _ & ->). simpl in *.
      rewrite sum_values_counter_add in H2, H3. lia. }
  intros Hagg. apply Hgen in Hagg. simpl in Hagg.
  rewrite sum_values_empty in Hagg. lia.
Qed.

Lemma count_one_split (kv : string) :
  Py.count ":" kv = 1%nat -> exists k v, kv = k ++ String ":" v.
Proof.
  induction kv as [|c kv IH]; simpl; [done|].
  destruct (decide (c = ":"%char)) as [->|Hc].
  - intros _. by exists EmptyString, kv.
  - simpl. intros (k & v & ->)%IH. by exists (String c k), v.
Qed.

Lemma add_counts_readable (segs : list string) (cc : gmap string Z) :
  (forall kv, kv ∈ segs -> ~ LogAnalysis.segment_malformed kv) ->
  exists cc', LogAnalysis.add_counts segs cc = inr cc'.
Proof.
  revert cc. induction segs as [|kv segs IH]; intros cc Hok; simpl; [eauto|].
  assert (forall kv', kv' ∈ segs -> ~ LogAnalysis.segment_malformed kv') as Hok'.
  { intros kv' Hin. apply Hok. by apply list_elem_of_further. }
  destruct (decide (kv = EmptyString)) as [->|Hne]; [by apply IH|].
  assert (~ LogAnalysis.segment_malformed kv) as Hkv
    by (apply Hok, list_elem_of_here).
  destruct (decide (Py.count ":" kv = 1%nat)) as [Hone|Hmany].
  - destruct (count_one_split kv Hone) as (k & v & ->).
    rewrite split_one_colon by done.
    destruct (Py.int v) eqn:Hint; [by apply IH|].
    destruct Hkv. split; [done|]. right. eauto.
  - destruct Hkv. split; [done|]. by left.
Qed.

(** X17: the read loop gets through exactly when every row can be read:
    no segment of any counts field is malformed and [strptime] accepts
    every timestamp. *)
Theorem aggregate_succeeds_iff rows tb :
  (exists tb', LogAnalysis.aggregate_from tb rows = inr tb')
  <-> Forall (fun row =>
                ~ LogAnalysis.counts_malformed (Csv.counts row)
                /\ is_Some (strptime (Csv.timestamp row))) rows.
Proof.
  revert tb. induction rows as [|row rows IH]; intros tb; simpl.
  - split; [constructor|eauto].
  - rewrite Forall_cons. split.
    + intros [tb' Hagg].
      destruct (LogAnalysis.process_row tb row) as [e|tb1] eqn:Hrow; [done|].
      split; [|apply (IH tb1); eauto]. split.
      * intros Hbad.
        destruct (process_row_malformed tb row (or_introl Hbad)) as [e He].
        congruence.
      * apply process_row_inr in Hrow as (? & tm & _ & -> & _). eauto.
    + intros [[Hok [tm Htm]] Hrest].
      destruct (add_counts_readable (Py.split ";" (Csv.counts row))
                  (LogAnalysis.class_counts tb)) as [cc Hcc].
      { intros kv Hin Hbad. apply Hok. by exists kv. }
      unfold LogAnalysis.process_row at 1. rewrite Hcc, Htm. by apply IH.
Qed.

Lemma counter_add_comm (c : gmap string Z) (k1 k2 : string) (n1 n2 : Z) :
  LogAnalysis.counter_add (LogAnalysis.counter_add c k1 n1) k2 n2
  = LogAnalysis.counter_add (LogAnalysis.counter_add c k2 n2) k1 n1.
Proof.
  unfold LogAnalysis.counter_add, Py.get. apply map_eq. intros i.
  destruct (decide (k1 = k2)) as [->|Hk].
  - rewrite !lookup_insert_eq. simpl.
    destruct (decide (k2 = i)) as [->|Hi].
    + rewrite !lookup_insert_eq. f_equal. lia.
    + by rewrite !lookup_insert_ne.
  - rewrite (lookup_insert_ne _ k1 k2), (lookup_insert_ne _ k2 k1) by done.
    destruct (decide (k1 = i)) as [->|H1], (decide (k2 = i)) as [->|H2];
      try done;
      by rewrite ?lookup_insert_eq, ?lookup_insert_ne, ?lookup_insert_eq by done.
Qed.

Lemma add_counts_counter_add (segs : list string) (cc : gmap string Z) k n :
  LogAnalysis.add_counts segs (LogAnalysis.counter_add cc k n)
  = match LogAnalysis.add_counts segs cc with
    | inl e => inl e
    | inr m => inr (LogAnalysis.counter_add m k n)
    end.
Proof.
  revert cc. induction segs as [|kv segs IH]; intros cc; simpl; [done|].
  destruct (decide (kv = EmptyString)); [apply IH|].
  destruct (Py.split ":" kv) as [|k' [|v [|? ?]]]; try done.
  destruct (Py.int v) as [cnt|]; [|done].
  by rewrite counter_add_comm, IH.
Qed.

Lemma add_counts_swap (s1 s2 : list string) (cc m1 m12 : gmap string Z) :
  LogAnalysis.add_counts s1 cc = inr m1 ->
  LogAnalysis.add_counts s2 m1 = inr m12 ->
  exists m2,
    LogAnalysis.add_counts s2 cc = inr m2 /\ LogAnalysis.add_counts s1 m2 = inr m12.
Proof.
  revert cc m1. induction s1 as [|kv s1 IH]; intros cc m1; simpl.
  - intros [= <-] H2. eauto.
  - destruct (decide (kv = EmptyString)); [apply IH|].
    destruct (Py.split ":" kv) as [|k [|v [|? ?]]]; try done.
    destruct (Py.int v) as [cnt|]; [|done].
    intros H1 H2. destruct (IH _ _ H1 H2) as (m2 & Hm2 & Hm12).
    rewrite add_counts_counter_add in Hm2.
    destruct (LogAnalysis.add_counts s2 cc) as [|m2']; [done|].
    injection Hm2 as <-. eauto.
Qed.

Lemma process_row_swap tb row1 row2 tb1 tb2 :
  LogAnalysis.process_row tb row1 = inr tb1 ->
  LogAnalysis.process_row tb1 row2 = inr tb2 ->
  exists tb1',
    LogAnalysis.process_row tb row2 = inr tb1'
    /\ LogAnalysis.process_row tb1' row1 = inr tb2.
Proof.
  intros (cc1 & tm1 & Hc1 & Ht1 & ->)%process_row_inr
         (cc2 & tm2 & Hc2 & Ht2 & ->)%process_row_inr.
  simpl in *. destruct (add_counts_swap _ _ _ _ _ Hc1 Hc2) as (m2 & Hm2 & Hm12).
  eexists. unfold LogAnalysis.process_row. rewrite Hm2, Ht2. split; [done|].
  simpl. rewrite Hm12, Ht1. do 2 f_equal; try lia; apply counter_add_comm.
Qed.

(** X18: the tables the read loop leaves do not depend on the order of
    the rows. *)
Theorem aggregate_order_independent rows rows' tb tb' :
  rows ≡ₚ rows' ->
  LogAnalysis.aggregate_from tb rows = inr tb' ->
  LogAnalysis.aggregate_from tb rows' = inr tb'.
Proof.
  intros Hp. revert tb.
  induction Hp as [|row rows rows' _ IH|row1 row2 rows|rows1 rows2 rows3 _ IH1 _ IH2];
    intros tb; simpl; auto.
  - destruct (LogAnalysis.process_row tb row); [done|]. apply IH.
  - destruct (LogAnalysis.process_row tb row2) as [|tb2] eqn:H2; [done|].
    destruct (LogAnalysis.process_row tb2 row1) as [|tb21] eqn:H1; [done|].
    destruct (process_row_swap _ _ _ _ _ H2 H1) as (tb1 & -> & ->). done.
Qed.

End tables_facts.

(** ** What the report is printed from *)

Section report_facts.
Implicit Types (items l : list (string * Z)) (x y : string * Z).

(** X19: the class totals of the report list every label of the table
    once, with its total, in ascending order of label. *)
Theorem class_totals_spec (class_counts : gmap string Z) :
  Sorted String.le (LogAnalysis.class_totals class_counts).*1
  /\ NoDup (LogAnalysis.class_totals class_counts).*1
  /\ forall (k : string) (v : Z),
       (k, v) ∈ LogAnalysis.class_totals class_counts <-> class_counts !! k = Some v.
Proof.
  unfold LogAnalysis.class_totals. split; [apply sorted_items_by_label|].
  split.
  - rewrite sorted_items_perm. apply NoDup_fst_map_to_list.
  - intros k v. rewrite sorted_items_perm. apply elem_of_map_to_list.
Qed.

#[local] Instance minute_le_total : Total LogAnalysis.minute_le.
Proof.
  intros a b. unfold LogAnalysis.minute_le.
  destruct (decide (a.2 = b.2)), (decide (b.2 = a.2)); try congruence;
    [apply (total String.le)|lia].
Qed.

#[local] Instance minute_le_trans : Transitive LogAnalysis.minute_le.
Proof.
  intros a b c. unfold LogAnalysis.minute_le.
  destruct (decide (a.2 = b.2)), (decide (b.2 = c.2)), (decide (a.2 = c.2));
    try lia; try (intros; lia).
  intros ? ?. by etrans.
Qed.

Lemma minute_le_count x y : LogAnalysis.minute_le x y -> y.2 <= x.2.
Proof. unfold LogAnalysis.minute_le. destruct (decide (x.2 = y.2)); lia. Qed.

(** X20: the minutes of the report are at most ten entries of the table,
    ten when the table has that many; they come by count, largest first,
    and by minute among equal counts; and no minute left out has a count
    above that of a minute listed. *)
Theorem top_minutes_spec (by_minute : gmap string Z) :
  length (LogAnalysis.top_minutes by_minute) = (10 `min` size by_minute)%nat
  /\ StronglySorted LogAnalysis.minute_le (LogAnalysis.top_minutes by_minute)
  /\ (forall (k : string) (v : Z),
        (k, v) ∈ LogAnalysis.top_minutes by_minute -> by_minute !! k = Some v)
  /\ (forall (k : string) (v : Z),
        by_minute !! k = Some v ->
        (k, v) ∈ LogAnalysis.top_minutes by_minute
        \/ forall x, x ∈ LogAnalysis.top_minutes by_minute -> v <= x.2).
Proof.
  unfold LogAnalysis.top_minutes.
  set (full := merge_sort LogAnalysis.minute_le (map_to_list by_minute)).
  assert (full ≡ₚ map_to_list by_minute) as Hp by apply merge_sort_Permutation.
  assert (StronglySorted LogAnalysis.minute_le full) as Hs
    by apply (StronglySorted_merge_sort LogAnalysis.minute_le).
  rewrite <- (take_drop 10 full) in Hs.
  split; [|split; [|split]].
  - by rewrite length_take, Hp, length_map_to_list.
  - by apply StronglySorted_app_1_l in Hs.
  - intros k v Hin. apply elem_of_map_to_list. rewrite <- Hp.
    by apply (subseteq_take 10 full).
  - intros k v Hkv. apply elem_of_map_to_list in Hkv. rewrite <- Hp in Hkv.
    rewrite <- (take_drop 10 full) in Hkv.
    apply elem_of_app in Hkv as [Hin|Hout]; [by left|right].
    intros x Hx.
    apply (minute_le_count x (k, v)).
    by apply (StronglySorted_app_1_elem_of _ _ _ _ _ Hs).
Qed.

Lemma insert_desc_perm x l : LogAnalysis.insert_desc x l ≡ₚ x :: l.
Proof.
  induction l as [|y l IH]; simpl; [done|].
  destruct (decide (x.2 < y.2)); [|done]. rewrite IH. apply Permutation_swap.
Qed.

Lemma sort_desc_perm l : LogAnalysis.sort_desc l ≡ₚ l.
Proof.
  induction l as [|x l IH]; simpl; [done|]. by rewrite insert_desc_perm, IH.
Qed.

Lemma insert_desc_sorted x l :
  StronglySorted (fun a b => b.2 <= a.2) l ->
  StronglySorted (fun a b => b.2 <= a.2) (LogAnalysis.insert_desc x l).
Proof.
  induction 1 as [|y l Hl IH Hy]; simpl; [repeat constructor|].
  destruct (decide (x.2 < y.2)).
  - constructor; [done|]. rewrite insert_desc_perm. constructor; [lia|done].
  - constructor; [by constructor|]. constructor; [lia|].
    eapply Forall_impl; [done|]. simpl. intros; lia.
Qed.

Lemma sort_desc_sorted l :
  StronglySorted (fun a b => b.2 <= a.2) (LogAnalysis.sort_desc l).
Proof.
  induction l as [|x l IH]; simpl; [constructor|]. by apply insert_desc_sorted.
Qed.

Lemma insert_desc_filter (c : Z) x l :
  filter (fun y => y.2 = c) (LogAnalysis.insert_desc x l)
  = filter (fun y => y.2 = c) (x :: l).
Proof.
  induction l as [|y l IH]; simpl; [done|].
  destruct (decide (x.2 < y.2)) as [Hlt|]; [|done].
  destruct (decide (y.2 = c)) as [Hy|Hy].
  - rewrite filter_cons_True, IH by done.
    rewrite (filter_cons_False _ x) by lia.
    by rewrite (filter_cons_False _ x), filter_cons_True by (done || lia).
  - rewrite filter_cons_False, IH by done.
    destruct (decide (x.2 = c)).
    + by rewrite !(filter_cons_True _ x), filter_cons_False by done.
    + by rewrite !(filter_cons_False _ x), filter_cons_False by done.
Qed.

(** X21: [most_common(n)] gives [n] items, or all when there are fewer,
    by count, largest first; no item left out has a count above that of an
    item listed; and items with the same count keep the order they have in
    the dictionary. *)
Theorem most_common_spec (n : nat) items :
  length (LogAnalysis.most_common n items) = (n `min` length items)%nat
  /\ StronglySorted (fun a b => b.2 <= a.2) (LogAnalysis.most_common n items)
  /\ (forall x, x ∈ LogAnalysis.most_common n items -> x ∈ items)
  /\ (forall x, x ∈ items ->
        x ∈ LogAnalysis.most_common n items
        \/ forall y, y ∈ LogAnalysis.most_common n items -> x.2 <= y.2)
  /\ (forall c : Z,
        filter (fun y => y.2 = c) (LogAnalysis.sort_desc items)
        = filter (fun y => y.2 = c) items).
Proof.
  unfold LogAnalysis.most_common.
  pose proof (sort_desc_perm items) as Hp.
  pose proof (sort_desc_sorted items) as Hs.
  rewrite <- (take_drop n (LogAnalysis.sort_desc items)) in Hs.
  split; [|split; [|split; [|split]]].
  - by rewrite length_take, Hp.
  - by apply StronglySorted_app_1_l in Hs.
  - intros x Hx. rewrite <- Hp. by apply (subseteq_take n).
  - intros x Hx. rewrite <- Hp, <- (take_drop n (LogAnalysis.sort_desc items)) in Hx.
    apply elem_of_app in Hx as [Hin|Hout]; [by left|right].
    intros y Hy.
    by apply (StronglySorted_app_1_elem_of (fun a b => b.2 <= a.2) _ _ _ _ Hs).
  - intros c. clear Hp Hs. induction items as [|x items IH]; [done|].
    simpl. rewrite insert_desc_filter.
    destruct (decide (x.2 = c)).
    + rewrite !(filter_cons_True _ x) by done. f_equal. apply IH.
    + rewrite !(filter_cons_False _ x) by done. apply IH.
Qed.

Lemma items_add_keys items (k : string) (n : Z) :
  (LogAnalysis.items_add items k n).*1
  = if decide (k ∈ items.*1) then items.*1 else (items.*1 ++ [k])%list.
Proof.
  induction items as [|[k' v] items IH].
  - destruct (decide (k ∈ ([] : list (string * Z)).*1)) as [Hin|_]; [|done].
    by apply elem_of_nil in Hin.
  - cbn [LogAnalysis.items_add]. rewrite !fmap_cons. cbn [fst].
    destruct (decide (k' = k)) as [->|Hk].
    + rewrite fmap_cons. cbn [fst].
      destruct (decide (k ∈ k :: items.*1)) as [_|Hn]; [done|].
      destruct Hn. apply list_elem_of_here.
    + rewrite fmap_cons, IH. cbn [fst].
      destruct (decide (k ∈ items.*1)) as [Hin|Hin],
        (decide (k ∈ k' :: items.*1)) as [Hin'|Hin']; try done.
      * destruct Hin'. by apply list_elem_of_further.
      * apply elem_of_cons in Hin' as [?|?]; congruence.
Qed.

Lemma items_add_map items (k : string) (n : Z) :
  NoDup items.*1 ->
  list_to_map (LogAnalysis.items_add items k n)
  = LogAnalysis.counter_add (list_to_map items) k n.
Proof.
  unfold LogAnalysis.counter_add, Py.get.
  induction items as [|[k' v] items IH]; intros Hnd.
  - simpl. by rewrite lookup_empty.
  - rewrite fmap_cons in Hnd. apply NoDup_cons in Hnd as [Hk' Hnd]. simpl in Hk'.
    cbn [LogAnalysis.items_add].
    destruct (decide (k' = k)) as [->|Hk].
    + cbn [list_to_map foldr fst snd uncurry].
      by rewrite lookup_insert_eq, insert_insert_eq.
    + cbn [list_to_map foldr fst snd uncurry].
      rewrite IH, lookup_insert_ne by done. apply insert_insert_ne. congruence.
Qed.

Lemma reasons_items_snoc (rows : list Csv.Row) (row : Csv.Row) :
  LogAnalysis.reasons_items (rows ++ [row])
  = LogAnalysis.items_add (LogAnalysis.reasons_items rows) (Csv.reason row) 1.
Proof. unfold LogAnalysis.reasons_items. by rewrite foldl_app. Qed.

Lemma reasons_items_NoDup (rows : list Csv.Row) :
  NoDup (LogAnalysis.reasons_items rows).*1.
Proof.
  induction rows as [|row rows IH] using rev_ind; [constructor|].
  rewrite reasons_items_snoc, items_add_keys. case_decide; [done|].
  apply NoDup_app. split; [done|]. split; [|apply NoDup_singleton].
  intros x Hx ->%list_elem_of_singleton. done.
Qed.

(** X22: the items of the reasons counter hold every reason of the log
    once, with the number of rows that carry it, and in the order in which
    the reasons first occur in the log. *)
Theorem reasons_items_spec (rows : list Csv.Row) :
  NoDup (LogAnalysis.reasons_items rows).*1
  /\ (forall (r : string) (c : Z),
        (r, c) ∈ LogAnalysis.reasons_items rows
        <-> r ∈ Csv.reason <$> rows
            /\ c = Z.of_nat (length (filter (fun q => q = r) (Csv.reason <$> rows))))
  /\ (forall row : Csv.Row,
        (LogAnalysis.reasons_items (rows ++ [row])).*1
        = if decide (Csv.reason row ∈ Csv.reason <$> rows)
          then (LogAnalysis.reasons_items rows).*1
          else ((LogAnalysis.reasons_items rows).*1 ++ [Csv.reason row])%list).
Proof.
  assert (forall r : string,
            (list_to_map (LogAnalysis.reasons_items rows) : gmap string Z) !! r
            = if decide (r ∈ Csv.reason <$> rows)
              then Some (Z.of_nat (length (filter (fun q => q = r)
                                             (Csv.reason <$> rows))))
              else None) as Hlook.
  { induction rows as [|row rows IH] using rev_ind; intros r.
    - change (LogAnalysis.reasons_items []) with ([] : list (string * Z)).
      change (list_to_map []) with (∅ : gmap string Z). rewrite lookup_empty.
      case_decide as Hin; [|done]. by apply elem_of_nil in Hin.
    - rewrite reasons_items_snoc, items_add_map by apply reasons_items_NoDup.
      unfold LogAnalysis.counter_add, Py.get.
      rewrite fmap_app, filter_app, length_app.
      change (Csv.reason <$> [row]) with [Csv.reason row].
      assert (r ∈ ((Csv.reason <$> rows) ++ [Csv.reason row])%list
              <-> r ∈ Csv.reason <$> rows \/ Csv.reason row = r) as Hmem.
      { rewrite elem_of_app, list_elem_of_singleton.
        split; intros [?|?]; auto. }
      destruct (decide (r ∈ ((Csv.reason <$> rows) ++ [Csv.reason row])%list))
        as [Hin'|Hin'];
        destruct (decide (r ∈ Csv.reason <$> rows)) as [Hin|Hin];
        destruct (decide (Csv.reason row = r)) as [Heq|Hr];
        try (exfalso; tauto).
      + rewrite Heq, lookup_insert_eq, IH, decide_True by done.
        rewrite filter_cons_True, filter_nil by done. simpl. f_equal. lia.
      + rewrite lookup_insert_ne, IH, decide_True by done.
        rewrite filter_cons_False, filter_nil by done. simpl. f_equal. lia.
      + rewrite Heq, lookup_insert_eq, IH, decide_False by done.
        rewrite filter_cons_True, filter_nil by done.
        assert (filter (fun q => q = r) (Csv.reason <$> rows) = []) as ->.
        { destruct (filter (fun q => q = r) (Csv.reason <$> rows)) as [|q l] eqn:Hf;
            [done|].
          assert (q ∈ filter (fun q => q = r) (Csv.reason <$> rows)) as Hq
            by (rewrite Hf; apply list_elem_of_here).
          apply list_elem_of_filter in Hq as [-> Hq]. done. }
        simpl. f_equal.
      + rewrite lookup_insert_ne, IH, decide_False by done. done. }
  split; [apply reasons_items_NoDup|]. split.
  - intros r c. rewrite (elem_of_list_to_map (M := gmap string))
      by apply reasons_items_NoDup.
    rewrite Hlook. case_decide; split; try done.
    + by intros [= <-].
    + by intros [_ ->].
    + by intros [? _].
  - intros row. rewrite reasons_items_snoc, items_add_keys.
    assert (Csv.reason row ∈ (LogAnalysis.reasons_items rows).*1
            <-> Csv.reason row ∈ Csv.reason <$> rows) as Hiff.
    { rewrite list_elem_of_fmap. split.
      - intros ([r c] & -> & Hin).
        apply (elem_of_list_to_map (M := gmap string)) in Hin;
          [|apply reasons_items_NoDup].
        rewrite Hlook in Hin. simpl in *. by case_decide.
      - intros Hin. pose proof (Hlook (Csv.reason row)) as Hl.
        rewrite decide_True in Hl by done.
        apply (elem_of_list_to_map (M := gmap string)) in Hl;
          [|apply reasons_items_NoDup].
        by eexists (_, _). }
    by repeat case_decide; try tauto.
Qed.

End report_facts.

(** ** The properties above at concrete inputs *)

Lemma uppercase_entry_never_matches_witness :
  @Lab9.bad_labels {| ANOMALY_SET := {[ "Chair"; "dog" ]}; MAX_PERSONS := None |}
    (@Lab9.frame_present Demo.demo_float Demo.demo_net
       (Demo.tick (Some 7%nat) [Demo.det 62 875; Demo.det 18 990] None None))
  = ["dog"]
  /\ "Chair" ∉
       @Lab9.bad_labels {| ANOMALY_SET := {[ "Chair"; "dog" ]}; MAX_PERSONS := None |}
         (@Lab9.frame_present Demo.demo_float Demo.demo_net
            (Demo.tick (Some 7%nat) [Demo.det 62 875; Demo.det 18 990] None None)).
Proof.
  split; [reflexivity|].
  apply (@uppercase_entry_never_matches Demo.demo_float Demo.demo_net
           {| ANOMALY_SET := {[ "Chair"; "dog" ]}; MAX_PERSONS := None |}
           (Demo.tick (Some 7%nat) [Demo.det 62 875; Demo.det 18 990] None None)).
  discriminate.
Defined.

Lemma display_closed_ends_run_witness :
  (@Lab9.run Demo.demo_float Demo.demo_net Lab9.shipped_rules (Lab9.initial [] ∅)
     [@Lab9.mkTick Demo.demo_float Demo.demo_net (Some 7%nat) true [Demo.det 62 875]
        "20240102_030405" None "2024-01-02 03:04:05" None None 29500 false;
      Demo.tick (Some 8%nat) [Demo.det 62 875] None None]).2
  = Lab9.Terminated.
Proof.
  destruct (@display_closed_ends_run Demo.demo_float Demo.demo_net Lab9.shipped_rules
              (Lab9.initial [] ∅)
              (@Lab9.mkTick Demo.demo_float Demo.demo_net (Some 7%nat) true
                 [Demo.det 62 875] "20240102_030405" None "2024-01-02 03:04:05"
                 None None 29500 false)
              7%nat [Demo.tick (Some 8%nat) [Demo.det 62 875] None None]
              eq_refl eq_refl) as [Hrun _].
  rewrite Hrun. reflexivity.
Defined.

Lemma same_second_overwrites_witness :
  Lab9.anomaly_count
    (@Lab9.iteration Demo.demo_float Demo.demo_net Lab9.shipped_rules
       (@Lab9.iteration Demo.demo_float Demo.demo_net Lab9.shipped_rules
          (Lab9.initial [] ∅)
          (Demo.tick (Some 7%nat) [Demo.det 62 875] None None)).1.1
       (Demo.tick (Some 8%nat) [Demo.det 62 900] None None)).1.1
  = 0 + 2
  /\ Lab9.snapshots
       (@Lab9.iteration Demo.demo_float Demo.demo_net Lab9.shipped_rules
          (@Lab9.iteration Demo.demo_float Demo.demo_net Lab9.shipped_rules
             (Lab9.initial [] ∅)
             (Demo.tick (Some 7%nat) [Demo.det 62 875] None None)).1.1
          (Demo.tick (Some 8%nat) [Demo.det 62 900] None None)).1.1
     = {[ Py.path_join Lab9.SNAPSHOT_DIR "anomaly_20240102_030405.jpg" := 8%nat ]}.
Proof.
  destruct (@same_second_overwrites Demo.demo_float Demo.demo_net Lab9.shipped_rules
              (Lab9.initial [] ∅)
              (Demo.tick (Some 7%nat) [Demo.det 62 875] None None)
              (Demo.tick (Some 8%nat) [Demo.det 62 900] None None)
              7%nat 8%nat eq_refl eq_refl eq_refl eq_refl eq_refl eq_refl eq_refl)
    as [Hsnap Hcount].
  split; [exact Hcount|]. rewrite Hsnap. reflexivity.
Defined.

Lemma loop_row_read_back_witness :
  exists row tb',
    Lab9.rows_attempted
      (@Lab9.iteration Demo.demo_float Demo.demo_net Lab9.shipped_rules
         (Lab9.initial [] ∅)
         (Demo.tick (Some 7%nat) [Demo.det 62 875; Demo.det 1 501] None None)).1.2
    = [row]
    /\ @LogAnalysis.process_row Demo.demo_datetime LogAnalysis.empty_tables row
       = inr tb'
    /\ LogAnalysis.total_rows tb' = 0 + 1.
Proof.
  destruct (@loop_row_read_back Demo.demo_float Demo.demo_net Lab9.shipped_rules
              Demo.demo_datetime (Lab9.initial [] ∅)
              (Demo.tick (Some 7%nat) [Demo.det 62 875; Demo.det 1 501] None None)
              7%nat LogAnalysis.empty_tables "2024-01-02 03:04:05"
              eq_refl eq_refl)
    as (row & tb' & Hrow & Hread & Htotal & _).
  - intros L HL.
    change (L ∈ ["chair"; "person"]) in HL.
    apply elem_of_cons in HL as [->|HL]; [split; reflexivity|].
    apply list_elem_of_singleton in HL as ->. split; reflexivity.
  - reflexivity.
  - exists row, tb'. split; [exact Hrow|]. split; [exact Hread|exact Htotal].
Defined.

Lemma aggregate_counts_rows_witness :
  exists tb,
    @LogAnalysis.aggregate Demo.demo_datetime
      [Csv.mkRow "2024-01-02 03:04:05" "A" "person" "person:2" EmptyString;
       Csv.mkRow "2024-01-02 03:05:06" "B" "chair;person" "person:1;chair:1" EmptyString]
    = inr tb
    /\ LogAnalysis.total_rows tb = 2
    /\ Py.sum_values (LogAnalysis.reasons tb) = 2
    /\ Py.sum_values (LogAnalysis.by_minute tb) = 2.
Proof.
  eexists. split; [reflexivity|].
  apply (@aggregate_counts_rows Demo.demo_datetime
           [Csv.mkRow "2024-01-02 03:04:05" "A" "person" "person:2" EmptyString;
            Csv.mkRow "2024-01-02 03:05:06" "B" "chair;person" "person:1;chair:1"
              EmptyString]).
  reflexivity.
Defined.

Lemma aggregate_order_independent_witness :
  exists tb,
    @LogAnalysis.aggregate_from Demo.demo_datetime LogAnalysis.empty_tables
      [Csv.mkRow "2024-01-02 03:04:05" "A" "person" "person:2" EmptyString;
       Csv.mkRow "2024-01-02 03:05:06" "B" "chair;person" "person:1;chair:1" EmptyString]
    = inr tb
    /\ @LogAnalysis.aggregate_from Demo.demo_datetime LogAnalysis.empty_tables
         [Csv.mkRow "2024-01-02 03:05:06" "B" "chair;person" "person:1;chair:1"
            EmptyString;
          Csv.mkRow "2024-01-02 03:04:05" "A" "person" "person:2" EmptyString]
       = inr tb.
Proof.
  eexists. split; [reflexivity|].
  apply (@aggregate_order_independent Demo.demo_datetime
           [Csv.mkRow "2024-01-02 03:04:05" "A" "person" "person:2" EmptyString;
            Csv.mkRow "2024-01-02 03:05:06" "B" "chair;person" "person:1;chair:1"
              EmptyString]).
  - apply Permutation_swap.
  - reflexivity.
Defined.
